(** * moov-go: call construction, response classification and endpoints

    A shallow embedding of the request/response plumbing of the Go client
    (the call builder and its options, the status enumeration, the typed
    decode helpers and the outcome combinators) and of the transfer and
    bank-account endpoint functions built on top of it.

    Conventions of the embedding:
    - a Go [error] is [option GoErr], [None] being [nil];
    - a pointer result [*A] is [option A], [None] being the nil pointer;
    - a slice result [[]A] is [option (list A)] where nil-ness is observable;
    - a [map[string]string] is a [gmap string string];
    - a Go [int] is a [Z]: the code compares and prints ints and performs
      no arithmetic on them, so the 64-bit range plays no role;
    - code that mutates through a pointer is written in state-passing style:
      the function takes the pointee and returns the updated pointee. *)

From Stdlib Require Import ZArith Ascii List Bool Lia DecimalString.
From Stdlib Require String Strings.Byte.
From stdpp Require Import base option list strings gmap sorting.

Local Open Scope Z_scope.

(** ** Byte strings and errors *)

Definition bytes := list Byte.byte.

Definition bytes_of_string (s : string) : bytes := String.list_byte_of_string s.

(** The error values of the package. The named errors are package-level
    [errors.New] values, hence pairwise distinct; [ErrDefault] wraps an HTTP
    status code. [ErrDuplicateBankAccount] and [ErrNoMicroDeposit] are
    declared in bank_account.go; the other named errors and [ErrDefault] are
    declared in a file of the package that is not part of the sources at
    hand, and are used here by name only. [ErrExternal] stands for an error
    produced by a collaborator (transport, JSON codec, a response's own
    [Error] method), identified by its message. *)
Inductive GoErr : Type :=
  | ErrDuplicateBankAccount
  | ErrNoMicroDeposit
  | ErrAmountIncorrect
  | ErrXIdempotencyKey
  | ErrRequestBody
  | ErrRateLimit
  | ErrDefault (statusCode : Z)
  | ErrExternal (msg : string).

Definition error := option GoErr.

#[global] Instance GoErr_eq_dec : EqDecision GoErr.
Proof. solve_decision. Defined.

(** Zero value of a Go type, as produced by [new(A)] or [var x A]. *)
Class GoZero (A : Type) := zero : A.
#[global] Hint Mode GoZero ! : typeclass_instances.

#[global] Instance string_zero : GoZero string := "".
#[global] Instance Z_zero : GoZero Z := 0.
#[global] Instance bool_zero : GoZero bool := false.
#[global] Instance list_zero {A} : GoZero (list A) := [].
#[global] Instance gmap_zero {V} : GoZero (gmap string V) :=
  (∅ : gmap string V).
#[global] Instance option_zero {A} : GoZero (option A) := (None : option A).

(** ** The JSON codec (encoding/json), an external collaborator

    [json_Marshal v] is [json.Marshal(v)]; [json_Unmarshal data v] is
    [json.Unmarshal(data, &v)], returning the updated pointee and the error.
    Both are given per Go type, as the codec works by reflection on it. *)
Class JsonMarshal (A : Type) := json_Marshal : A → bytes * error.
Class JsonUnmarshal (A : Type) := json_Unmarshal : bytes → A → A * error.
#[global] Hint Mode JsonMarshal ! : typeclass_instances.
#[global] Hint Mode JsonUnmarshal ! : typeclass_instances.

(** ** Call statuses (part_000, lines 10-37) *)

Record CallStatus : Type := mkCallStatus {
  Name : string;
  Retryable : bool
}.

#[global] Instance CallStatus_eq_dec : EqDecision CallStatus.
Proof. solve_decision. Defined.

Definition callStatus (name : string) (retryable : bool) : CallStatus :=
  {| Name := name; Retryable := retryable |}.

Definition StatusCompleted := callStatus "completed" false.
Definition StatusStarted := callStatus "started" true.
Definition StatusBadRequest := callStatus "bad_request" false.
Definition StatusStateConflict := callStatus "state_conflict" false.
Definition StatusFailedValidation := callStatus "failed_validation" false.
Definition StatusNotFound := callStatus "not_found" false.
Definition StatusUnauthenticated := callStatus "unauthenticated" false.
Definition StatusUnauthorized := callStatus "unauthorized" false.
Definition StatusRateLimited := callStatus "rate_limited" true.
Definition StatusServerError := callStatus "server_error" true.

(** The ten package-level status variables, in declaration order. *)
Definition definedStatuses : list CallStatus :=
  [ StatusCompleted; StatusStarted;
    StatusBadRequest; StatusStateConflict; StatusFailedValidation;
    StatusNotFound;
    StatusUnauthenticated; StatusUnauthorized;
    StatusRateLimited;
    StatusServerError ].

(** ** The call builder (part_000, lines 39-131) *)

Record callBuilder : Type := mkCallBuilder {
  method : string;
  path : string;
  params : gmap string string;
  headers : gmap string string;
  token : option string;
  body : option bytes
}.

(** Field updates of the shared builder. *)
Definition set_method (m : string) (c : callBuilder) : callBuilder :=
  mkCallBuilder m (path c) (params c) (headers c) (token c) (body c).
Definition set_path (p : string) (c : callBuilder) : callBuilder :=
  mkCallBuilder (method c) p (params c) (headers c) (token c) (body c).
Definition set_header (k v : string) (c : callBuilder) : callBuilder :=
  mkCallBuilder (method c) (path c) (params c) (<[k := v]> (headers c))
                (token c) (body c).
Definition set_body (b : bytes) (c : callBuilder) : callBuilder :=
  mkCallBuilder (method c) (path c) (params c) (headers c) (token c) (Some b).

(** [callArg]: the one-method interface [apply(call *callBuilder) error].
    An option receives the builder, may mutate it, and reports an error. *)
Definition callArg : Type := callBuilder → callBuilder * error.

Definition apply (a : callArg) (call : callBuilder) : callBuilder * error :=
  a call.

Definition callBuilderFn (fn : callBuilder → callBuilder * error) : callArg :=
  fn.

Definition EndpointArg : Type := callArg.

(** [prependArgs(opts, args...)]: appends every element of [opts], in order,
    to the variadic [args]. *)
Definition prependArgs (opts : list callArg) (args : list callArg)
  : list callArg :=
  fold_left (λ acc o, acc ++ [o]) opts args.

(** The [for _, args := range args] loop of [newCall]. *)
Fixpoint applyAll (args : list callArg) (call : callBuilder)
  : option callBuilder * error :=
  match args with
  | [] => (Some call, None)
  | a :: rest =>
      let '(call', err) := apply a call in
      match err with
      | Some e => (None, Some e)
      | None => applyAll rest call'
      end
  end.

Definition emptyCall : callBuilder :=
  {| method := ""; path := ""; params := ∅; headers := ∅;
     token := None; body := None |}.

Definition newCall (endpoint : EndpointArg) (args : list callArg)
  : option callBuilder * error :=
  let call := emptyCall in
  let args := prependArgs args [endpoint] in
  applyAll args call.

(** *** fmt.Sprintf on string operands

    The formats of this package take string operands for [%s] verbs only.
    The model covers [%s] and [%v] (the operand itself), [%%], a verb that
    has no operand left ([%!s(MISSING)]), another verb letter applied to a
    string ([%!d(string=x)]), a trailing [%] ([%!(NOVERB)]) and operands
    that are left over ([%!(EXTRA string=a, string=b)]). Flags, widths and
    precisions do not occur in the package and are not modelled. *)
Fixpoint Sprintf_go (fmt : string) (args : list string)
  : string * list string :=
  match fmt with
  | EmptyString => (EmptyString, args)
  | String "%" EmptyString => ("%!(NOVERB)", args)
  | String "%" (String "%" rest) =>
      let '(out, extra) := Sprintf_go rest args in
      (String "%" out, extra)
  | String "%" (String verb rest) =>
      match args with
      | [] =>
          let '(out, extra) := Sprintf_go rest [] in
          ("%!" +:+ String verb "(MISSING)" +:+ out, extra)
      | a :: args' =>
          let '(out, extra) := Sprintf_go rest args' in
          if bool_decide (verb = "s"%char ∨ verb = "v"%char)
          then (a +:+ out, extra)
          else ("%!" +:+ String verb "(string=" +:+ a +:+ ")" +:+ out, extra)
      end
  | String c rest =>
      let '(out, extra) := Sprintf_go rest args in
      (String c out, extra)
  end.

Fixpoint extraOperands (args : list string) : string :=
  match args with
  | [] => ""
  | [a] => "string=" +:+ a
  | a :: rest => "string=" +:+ a +:+ ", " +:+ extraOperands rest
  end.

Definition Sprintf (fmt : string) (args : list string) : string :=
  let '(out, extra) := Sprintf_go fmt args in
  match extra with
  | [] => out
  | _ => out +:+ "%!(EXTRA " +:+ extraOperands extra +:+ ")"
  end.

(** *** The request options *)

Definition Endpoint (method : string) (pathFmt : string) (args : list string)
  : EndpointArg :=
  callBuilderFn (λ call,
    let call := set_method method call in
    let call := set_path (Sprintf pathFmt args) call in
    (call, None)).

Definition JsonBody {A : Type} `{!JsonMarshal A} (body : A) : callArg :=
  callBuilderFn (λ call,
    let '(payload, err) := json_Marshal body in
    match err with
    | Some e => (call, Some e)
    | None =>
        let call := set_header "Context-Type" "application/json" call in
        let call := set_body payload call in
        (call, None)
    end).

Definition AcceptJson : callArg :=
  callBuilderFn (λ call,
    (set_header "Accept" "application/json" call, None)).

Definition WaitFor (state : string) : callArg :=
  callBuilderFn (λ call, (set_header "X-Wait-For" state call, None)).

(** ** Responses (part_000, lines 133-192) *)

(** The [CallResponse] interface. [Unmarshal(item any)] fills the value
    behind [item]; the response decides how, given the codec for the type of
    the pointee. [Error] converts the response into a Go error. *)
Record CallResponse : Type := mkCallResponse {
  Status : CallStatus;
  Unmarshal : ∀ A : Type, JsonUnmarshal A → A → A * error;
  Error : error
}.

Arguments Unmarshal _ {A} {_} _.

Definition UnmarshalObjectResponse {A : Type} `{!GoZero A, !JsonUnmarshal A}
    (resp : CallResponse) : option A * error :=
  let item : A := zero in
  let '(item, err) := Unmarshal resp item in
  match err with
  | Some e => (None, Some e)
  | None => (Some item, None)
  end.

(** The decode target of the list helper is the slice variable itself,
    initialised to the empty non-nil slice [[]A{}]. *)
Definition UnmarshalListResponse {A : Type} `{!JsonUnmarshal (option (list A))}
    (resp : CallResponse) : option (list A) * error :=
  let item : option (list A) := Some [] in
  let '(item, err) := Unmarshal resp item in
  match err with
  | Some e => (None, Some e)
  | None => (item, None)
  end.

Definition CompletedNilOrError (resp : CallResponse) : error :=
  if decide (Status resp = StatusCompleted) then None
  else Error resp.

Definition CompletedObjectOrError {A : Type} `{!GoZero A, !JsonUnmarshal A}
    (resp : CallResponse) : option A * error :=
  if decide (Status resp = StatusCompleted)
  then UnmarshalObjectResponse resp
  else (None, Error resp).

Definition CompletedListOrError {A : Type} `{!JsonUnmarshal (option (list A))}
    (resp : CallResponse) : option (list A) * error :=
  if decide (Status resp = StatusCompleted)
  then UnmarshalListResponse resp
  else (None, Error resp).

(** ** Collaborators and declarations outside the sources at hand

    [time.Time] with its [IsZero] and [Format] methods, the payment-method
    structs declared in other files of the package, the path templates and
    the base URL. They are taken as parameters of the development. *)
Class Deps : Type := {
  Ctx : Type;                              (* context.Context *)
  Time : Type;                             (* time.Time *)
  Time_zero : Time;                        (* time.Time{} *)
  Time_IsZero : Time → bool;               (* t.IsZero() *)
  Time_Format : Time → string → string;    (* t.Format(layout) *)
  Dispute : Type;
  Wallet : Type;
  Card : Type;
  ApplePay : Type;
  CardDetails : Type;
  Wallet_zero : Wallet;
  Card_zero : Card;
  ApplePay_zero : ApplePay;
  CardDetails_zero : CardDetails;
  baseURL : string;
  pathTransfers : string;
  pathBankAccounts : string;
  pathMicroDeposits : string
}.

(** Constants of net/http and time used by the endpoints. *)
Module http.
Definition MethodGet : string := "GET".
Definition MethodPost : string := "POST".
Definition MethodPut : string := "PUT".
Definition MethodDelete : string := "DELETE".
Definition StatusOK : Z := 200.
Definition StatusAccepted : Z := 202.
Definition StatusBadRequest : Z := 400.
Definition StatusConflict : Z := 409.
Definition StatusUnprocessableEntity : Z := 422.
Definition StatusTooManyRequests : Z := 429.
End http.

Definition RFC3339 : string := "2006-01-02T15:04:05Z07:00".

Section Structs.
Context `{D : Deps}.

#[global] Instance Time_GoZero : GoZero Time := Time_zero.
#[global] Instance Wallet_GoZero : GoZero Wallet := Wallet_zero.
#[global] Instance Card_GoZero : GoZero Card := Card_zero.
#[global] Instance ApplePay_GoZero : GoZero ApplePay := ApplePay_zero.
#[global] Instance CardDetails_GoZero : GoZero CardDetails := CardDetails_zero.

(** *** bank_account.go, lines 15-61 *)

Record BankAccount : Type := mkBankAccount {
  BankAccountID : string;
  Fingerprint : string;
  BankAccount_Status : string;
  HolderName : string;
  HolderType : string;
  BankName : string;
  BankAccountType : string;
  AccountNumber : string;
  RoutingNumber : string;
  LastFourAccountNumber : string
}.

Record Correction : Type := mkCorrection {
  Correction_Code : string;
  Correction_Reason : string;
  Correction_Description : string
}.

Record Return : Type := mkReturn {
  Return_Code : string;
  Return_Reason : string;
  Return_Description : string
}.

Record ACHStatusUpdates : Type := mkACHStatusUpdates {
  Initiated : Time;
  Originated : Time;
  Corrected : Time;
  Returned : Time;
  Completed : Time
}.

Record AchDetails : Type := mkAchDetails {
  AchDetails_Status : string;
  TraceNumber : string;
  AchDetails_Return : Return;
  AchDetails_Correction : Correction;
  CompanyEntryDescription : string;
  OriginatingCompanyName : string;
  StatusUpdates : ACHStatusUpdates;
  DebitHoldPeriod : string
}.

Record BankAccountPayload : Type := mkBankAccountPayload {
  BankAccountPayload_Account : BankAccount
}.

(** *** transfer.go, lines 37-181 *)

Record Amount : Type := mkAmount {
  Currency : string;
  Value : Z
}.

Record FacilitatorFee : Type := mkFacilitatorFee {
  FacilitatorFee_Total : Z;
  TotalDecimal : string;
  Markup : Z;
  MarkupDecimal : string
}.

Record MoovFeeDetails : Type := mkMoovFeeDetails {
  CardScheme : string;
  Interchange : string;
  MoovProcessing : string
}.

Record Refund : Type := mkRefund {
  RefundID : string;
  Refund_CreatedOn : Time;
  Refund_UpdatedOn : Time;
  Refund_Status : string;
  FailureCode : string;
  Refund_Amount : Amount;
  Refund_CardDetails : CardDetails
}.

Record TransferAccount : Type := mkTransferAccount {
  AccountID : string;
  Email : string;
  DisplayName : string
}.

Record Source : Type := mkSource {
  Source_PaymentMethodID : string;
  Source_PaymentMethodType : string;
  Source_Account : TransferAccount;
  Source_BankAccount : BankAccount;
  Source_Wallet : Wallet;
  Source_Card : Card;
  Source_ApplePay : ApplePay;
  Source_AchDetails : AchDetails;
  Source_CardDetails : CardDetails;
  Source_TransferID : string
}.

Record Destination : Type := mkDestination {
  Destination_PaymentMethodID : string;
  Destination_PaymentMethodType : string;
  Destination_Account : TransferAccount;
  Destination_BankAccount : BankAccount;
  Destination_Wallet : Wallet;
  Destination_Card : Card;
  Destination_ApplePay : ApplePay;
  Destination_AchDetails : AchDetails;
  Destination_CardDetails : CardDetails
}.

Record SynchronousTransfer : Type := mkSynchronousTransfer {
  Sync_TransferID : string;
  Sync_CreatedOn : Time;
  Sync_CompletedOn : Time;
  Sync_Status : string;
  Sync_FailureReason : string;
  Sync_Amount : Amount;
  Sync_Description : string;
  Sync_Metadata : gmap string string;
  Sync_FacilitatorFee : FacilitatorFee;
  Sync_MoovFee : Z;
  Sync_MoovFeeDecimal : string;
  Sync_MoovFeeDetails : MoovFeeDetails;
  Sync_GroupID : string;
  Sync_RefundedAmount : Amount;
  Sync_Refunds : list Refund;
  Sync_DisputedAmount : Amount;
  Sync_Disputes : list Dispute;
  Sync_Source : Source;
  Sync_Destination : Destination
}.

Record AsynchronousTransfer : Type := mkAsynchronousTransfer {
  TransferID : string;
  CreatedOn : Time
}.

Record SearchQueryPayload : Type := mkSearchQueryPayload {
  AccountIDs : list string;
  Query_Status : string;
  StartDateTime : Time;
  EndDateTime : Time;
  GroupID : string;
  Count : Z;
  Skip : Z;
  Refunded : bool;
  Disputed : bool
}.

Record RefundPayload : Type := mkRefundPayload {
  RefundPayload_Amount : Z
}.

Record RefundStatus : Type := mkRefundStatus {
  RefundStatus_Status : string;
  RefundStatus_CreatedOn : Time
}.

Record CanceledTransfer : Type := mkCanceledTransfer {
  Cancellation : RefundStatus;
  CanceledTransfer_Refund : Refund
}.

(** The request struct [CreateTransfer]; the name without suffix is kept
    for the client method. *)
Record CreateTransferReq : Type := mkCreateTransferReq {
  Req_Source : Source;
  Req_Destination : Destination;
  Req_Amount : Amount;
  Req_FacilitatorFee : FacilitatorFee;
  Req_Description : string;
  Req_Metadata : gmap string string
}.

(** Zero values of the structs that the endpoints declare or allocate. *)
#[global] Instance BankAccount_zero : GoZero BankAccount :=
  mkBankAccount "" "" "" "" "" "" "" "" "" "".
#[global] Instance Correction_zero : GoZero Correction := mkCorrection "" "" "".
#[global] Instance Return_zero : GoZero Return := mkReturn "" "" "".
#[global] Instance ACHStatusUpdates_zero : GoZero ACHStatusUpdates :=
  mkACHStatusUpdates zero zero zero zero zero.
#[global] Instance AchDetails_zero : GoZero AchDetails :=
  mkAchDetails "" "" zero zero "" "" zero "".
#[global] Instance Amount_zero : GoZero Amount := mkAmount "" 0.
#[global] Instance FacilitatorFee_zero : GoZero FacilitatorFee :=
  mkFacilitatorFee 0 "" 0 "".
#[global] Instance MoovFeeDetails_zero : GoZero MoovFeeDetails :=
  mkMoovFeeDetails "" "" "".
#[global] Instance Refund_zero : GoZero Refund :=
  mkRefund "" zero zero "" "" zero zero.
#[global] Instance TransferAccount_zero : GoZero TransferAccount :=
  mkTransferAccount "" "" "".
#[global] Instance Source_zero : GoZero Source :=
  mkSource "" "" zero zero zero zero zero zero zero "".
#[global] Instance Destination_zero : GoZero Destination :=
  mkDestination "" "" zero zero zero zero zero zero zero.
#[global] Instance SynchronousTransfer_zero : GoZero SynchronousTransfer :=
  mkSynchronousTransfer "" zero zero "" "" zero "" ∅ zero 0 "" zero ""
                        zero [] zero [] zero zero.
#[global] Instance AsynchronousTransfer_zero : GoZero AsynchronousTransfer :=
  mkAsynchronousTransfer "" zero.
#[global] Instance RefundStatus_zero : GoZero RefundStatus :=
  mkRefundStatus "" zero.
#[global] Instance CanceledTransfer_zero : GoZero CanceledTransfer :=
  mkCanceledTransfer zero zero.
End Structs.

(** ** net/url: query values and their encoding (external collaborator)

    [Values] is [map[string][]string]; [Add] appends to the values of a key;
    [Encode] writes [key=value] pairs sorted by key and joined by [&], keys
    and values escaped as query components. *)
Module url.
Abbreviation Values := (gmap string (list string)).

Definition Add (key value : string) (v : Values) : Values :=
  <[key := default [] (v !! key) ++ [value]]> v.

Definition Has (key : string) (v : Values) : bool :=
  bool_decide (is_Some (v !! key)).

Definition isAlnum (c : ascii) : bool :=
  let n := N_of_ascii c in
  ((97 <=? n) && (n <=? 122) || (65 <=? n) && (n <=? 90)
   || (48 <=? n) && (n <=? 57))%N.

(** [shouldEscape(c, encodeQueryComponent)]. *)
Definition shouldEscape (c : ascii) : bool :=
  if isAlnum c then false
  else if bool_decide (c ∈ ["-"; "_"; "."; "~"]%char) then false
  else true.

Definition upperhex (n : N) : ascii :=
  default "0"%char (String.get (N.to_nat n) "0123456789ABCDEF").

Fixpoint QueryEscape (s : string) : string :=
  match s with
  | EmptyString => EmptyString
  | String c rest =>
      if shouldEscape c then
        if bool_decide (c = " "%char) then String "+" (QueryEscape rest)
        else
          let n := N_of_ascii c in
          String "%" (String (upperhex (N.shiftr n 4))
                        (String (upperhex (N.land n 15)) (QueryEscape rest)))
      else String c (QueryEscape rest)
  end.

(** Byte-wise lexicographic order, the order of [slices.Sort] on strings. *)
Definition stringLe (a b : string) : Prop := String.leb a b = true.

#[global] Instance stringLe_dec : RelDecision stringLe.
Proof. intros a b. unfold stringLe. apply _. Defined.

Definition sortKeys (keys : list string) : list string :=
  merge_sort stringLe keys.

Definition encodePairs (k : string) (vs : list string) : list string :=
  (λ v, QueryEscape k +:+ "=" +:+ QueryEscape v) <$> vs.

Definition Encode (v : Values) : string :=
  let keys := sortKeys (elements (dom v)) in
  String.concat "&"
    (mjoin ((λ k, encodePairs k (default [] (v !! k))) <$> keys)).
End url.

(** [strings.Join] and [fmt.Sprint] of an [int]. *)
Definition strings_Join (elems : list string) (sep : string) : string :=
  String.concat sep elems.

Definition Sprint_int (n : Z) : string := NilZero.string_of_int (Z.to_int n).

(** What [json.Unmarshal(data, &e)] leaves in a variable [e] of the interface
    type [error] that holds nil. The codec cannot build a value of a
    non-empty interface type: a JSON null stores nil, any other JSON value
    is refused with an UnmarshalTypeError and malformed input with a
    SyntaxError, so [e] holds nil afterwards whatever [data] is. The error
    the codec reports is dropped by its two callers and is not modelled. *)
Definition json_Unmarshal_nil_error (data : bytes) : error := None.

Section Endpoints.
Context `{D : Deps}.

(** The [payload any] argument of [GetHTTPResponse]: nil is [None]. *)
Inductive Payload : Type :=
  | PayloadRefund (p : RefundPayload).

(** The client. Its two request methods are declared outside the sources
    at hand and are taken as parameters: [CallHttp] receives the endpoint
    and the options and returns the classified response or an error;
    [GetHTTPResponse] receives method, URL, payload and headers and
    returns body, status code and transport error. A nil header map reads
    as the empty map. *)
Record Client : Type := mkClient {
  CallHttp : Ctx → EndpointArg → list callArg → CallResponse + GoErr;
  GetHTTPResponse :
    string → string → option Payload → gmap string string → bytes * Z * error
}.

(** Modelled from the spec: how [CallHttp] is built on the call builder.
    Per sections 4.1 and 4.5 it builds the request from the endpoint and
    the options, returns the construction error if there is one without
    sending anything, and otherwise hands the built call to the transport,
    which returns the classified response or the transport error. *)
Definition builderClient
    (roundTrip : Ctx → option callBuilder → CallResponse + GoErr)
    (raw : string → string → option Payload → gmap string string →
           bytes * Z * error) : Client :=
  {| CallHttp := λ ctx endpoint args,
       let '(call, err) := newCall endpoint args in
       match err with
       | Some e => inr e
       | None => roundTrip ctx call
       end;
     GetHTTPResponse := raw |}.

Context `{!JsonMarshal BankAccount, !JsonUnmarshal BankAccount,
          !JsonUnmarshal (option (list BankAccount)),
          !JsonMarshal (gmap string (list Z)),
          !JsonMarshal CreateTransferReq,
          !JsonUnmarshal SynchronousTransfer,
          !JsonUnmarshal AsynchronousTransfer,
          !JsonUnmarshal (option (list SynchronousTransfer)),
          !JsonUnmarshal Refund, !JsonUnmarshal CanceledTransfer}.

(** *** bank_account.go, lines 63-147 *)

Definition CreateBankAccount (c : Client) (ctx : Ctx) (accountID : string)
    (bankAccount : BankAccount) : option BankAccount * error :=
  match CallHttp c ctx
          (Endpoint http.MethodPost pathBankAccounts [accountID])
          [AcceptJson; JsonBody bankAccount] with
  | inr err => (None, Some err)
  | inl resp =>
      if decide (Status resp = StatusCompleted)
      then CompletedObjectOrError resp
      else if decide (Status resp = StatusStateConflict)
      then (None, Some ErrDuplicateBankAccount)
      else (None, Error resp)
  end.

Definition GetBankAccount (c : Client) (ctx : Ctx) (accountID : string)
    (bankAccountID : string) : option BankAccount * error :=
  match CallHttp c ctx
          (Endpoint http.MethodGet pathBankAccounts [accountID])
          [AcceptJson] with
  | inr err => (None, Some err)
  | inl resp => CompletedObjectOrError resp
  end.

Definition DeleteBankAccount (c : Client) (ctx : Ctx) (accountID : string)
    (bankAccountID : string) : error :=
  match CallHttp c ctx
          (Endpoint http.MethodDelete pathBankAccounts [accountID]) [] with
  | inr err => Some err
  | inl resp => CompletedNilOrError resp
  end.

Definition ListBankAccounts (c : Client) (ctx : Ctx) (accountID : string)
    : option (list BankAccount) * error :=
  match CallHttp c ctx
          (Endpoint http.MethodGet pathBankAccounts [accountID])
          [AcceptJson] with
  | inr err => (None, Some err)
  | inl resp => CompletedListOrError resp
  end.

Definition MicroDepositInitiate (c : Client) (ctx : Ctx)
    (accountID : string) (bankAccountID : string) : error :=
  match CallHttp c ctx
          (Endpoint http.MethodPost pathMicroDeposits
                    [accountID; bankAccountID]) [] with
  | inr err => Some err
  | inl resp => CompletedNilOrError resp
  end.

Definition MicroDepositConfirm (c : Client) (ctx : Ctx) (accountID : string)
    (bankAccountID : string) (amounts : list Z) : error :=
  match CallHttp c ctx
          (Endpoint http.MethodPut pathMicroDeposits
                    [accountID; bankAccountID])
          [AcceptJson;
           JsonBody ({["amounts" := amounts]} : gmap string (list Z))] with
  | inr err => Some err
  | inl resp =>
      if decide (Status resp = StatusCompleted) then None
      else if decide (Status resp = StatusNotFound)
      then Some ErrNoMicroDeposit
      else if decide (Status resp = StatusStateConflict)
      then Some ErrAmountIncorrect
      else Error resp
  end.

(** *** transfer.go, lines 183-267 *)

(** The options that [CreateTransfer] assembles, lines 186-189. *)
Definition CreateTransfer_args (transfer : CreateTransferReq) (isSync : bool)
    : list callArg :=
  let args := [AcceptJson; JsonBody transfer] in
  let args := if isSync then args ++ [WaitFor "rail-response"] else args in
  args.

Definition CreateTransfer (c : Client) (ctx : Ctx)
    (transfer : CreateTransferReq) (isSync : bool)
    : option SynchronousTransfer * option AsynchronousTransfer * error :=
  let args := CreateTransfer_args transfer isSync in
  match CallHttp c ctx (Endpoint http.MethodPost pathTransfers []) args with
  | inr err => (None, None, Some err)
  | inl resp =>
      if decide (Status resp = StatusCompleted) then
        let '(st, err) := UnmarshalObjectResponse (A := SynchronousTransfer) resp in
        (st, None, err)
      else if decide (Status resp = StatusStarted) then
        let '(st, err) := UnmarshalObjectResponse (A := AsynchronousTransfer) resp in
        (None, st, err)
      else if decide (Status resp = StatusStateConflict) then
        (None, None, Some ErrXIdempotencyKey)
      else (None, None, Error resp)
  end.

(** The query values that [ListTransfers] assembles, lines 215-247. *)
Definition ListTransfers_values (payload : SearchQueryPayload) : url.Values :=
  let values : url.Values := ∅ in
  let startDateTimeStr := Time_Format (StartDateTime payload) RFC3339 in
  let endDateTimeStr := Time_Format (EndDateTime payload) RFC3339 in
  let values :=
    if bool_decide (0 < Z.of_nat (length (AccountIDs payload)))
    then url.Add "accountIDs" (strings_Join (AccountIDs payload) ",") values
    else values in
  let values :=
    if bool_decide (Query_Status payload ≠ "")
    then url.Add "status" (Query_Status payload) values else values in
  let values :=
    if negb (Time_IsZero (StartDateTime payload))
    then url.Add "startDateTime" startDateTimeStr values else values in
  let values :=
    if negb (Time_IsZero (EndDateTime payload))
    then url.Add "endDateTime" endDateTimeStr values else values in
  let values :=
    if bool_decide (GroupID payload ≠ "")
    then url.Add "groupID" (GroupID payload) values else values in
  let values :=
    if bool_decide (0 < Count payload)
    then url.Add "count" (Sprint_int (Count payload)) values else values in
  let values :=
    if bool_decide (0 < Skip payload)
    then url.Add "skip" (Sprint_int (Skip payload)) values else values in
  let values :=
    if Refunded payload then url.Add "refunded" "true" values else values in
  let values :=
    if Disputed payload then url.Add "disputed" "true" values else values in
  values.

(** The URL that [ListTransfers] requests, line 249. *)
Definition ListTransfers_url (payload : SearchQueryPayload) : string :=
  Sprintf "%s/%s?%s"
    [baseURL; pathTransfers; url.Encode (ListTransfers_values payload)].


(** *** transfer.go, lines 355-395 and 447-485

    [uuidV4] is the value that [uuid.NewString()] draws for the call. *)

(** URL and headers of the refund request, lines 360-365. *)
Definition RefundTransfer_url (transferID : string) : string :=
  Sprintf "%s/%s/%s/refunds" [baseURL; pathTransfers; transferID].

Definition RefundTransfer_header (uuidV4 : string) (isSync : bool)
    : gmap string string :=
  let header : gmap string string := {["X-Idempotency-Key" := uuidV4]} in
  let header :=
    if isSync then <["X-Wait-For" := "rail-response"]> header else header in
  header.

Definition RefundTransfer (c : Client) (uuidV4 : string)
    (transferID : string) (isSync : bool) (amount : Z) : Refund * error :=
  let respRefund : Refund := zero in
  let urlStr := RefundTransfer_url transferID in
  let header := RefundTransfer_header uuidV4 isSync in
  let refundPayload := {| RefundPayload_Amount := amount |} in
  let '(body, statusCode, err) :=
    GetHTTPResponse c http.MethodPost urlStr
                    (Some (PayloadRefund refundPayload)) header in
  match err with
  | Some e => (respRefund, Some e)
  | None =>
      if decide (statusCode = http.StatusOK ∨ statusCode = http.StatusAccepted)
      then
        let '(respRefund, err) := json_Unmarshal body respRefund in
        match err with
        | Some e => (respRefund, Some e)
        | None => (respRefund, None)
        end
      else if decide (statusCode = http.StatusBadRequest) then
        let err : error := json_Unmarshal_nil_error body in
        (respRefund, err)
      else if decide (statusCode = http.StatusConflict) then
        (respRefund, Some ErrXIdempotencyKey)
      else if decide (statusCode = http.StatusUnprocessableEntity) then
        (respRefund, Some ErrRequestBody)
      else if decide (statusCode = http.StatusTooManyRequests) then
        (respRefund, Some ErrRateLimit)
      else (respRefund, Some (ErrDefault statusCode))
  end.

(** URL and headers of the reversal request, lines 452-454. *)
Definition ReverseTransfer_url (transferID : string) : string :=
  Sprintf "%s/%s/%s/reversals" [baseURL; pathTransfers; transferID].

Definition ReverseTransfer_header (uuidV4 : string) : gmap string string :=
  {["X-Idempotency-Key" := uuidV4]}.

Definition ReverseTransfer (c : Client) (uuidV4 : string)
    (transferID : string) (amount : Z) : CanceledTransfer * error :=
  let respTransfer : CanceledTransfer := zero in
  let urlStr := ReverseTransfer_url transferID in
  let header := ReverseTransfer_header uuidV4 in
  let refundPayload := {| RefundPayload_Amount := amount |} in
  let '(body, statusCode, err) :=
    GetHTTPResponse c http.MethodPost urlStr
                    (Some (PayloadRefund refundPayload)) header in
  match err with
  | Some e => (respTransfer, Some e)
  | None =>
      if decide (statusCode = http.StatusOK ∨ statusCode = http.StatusAccepted)
      then
        let '(respTransfer, err) := json_Unmarshal body respTransfer in
        match err with
        | Some e => (respTransfer, Some e)
        | None => (respTransfer, None)
        end
      else if decide (statusCode = http.StatusBadRequest) then
        let err : error := json_Unmarshal_nil_error body in
        (respTransfer, err)
      else if decide (statusCode = http.StatusConflict) then
        (respTransfer, Some ErrXIdempotencyKey)
      else if decide (statusCode = http.StatusUnprocessableEntity) then
        (respTransfer, Some ErrRequestBody)
      else if decide (statusCode = http.StatusTooManyRequests) then
        (respTransfer, Some ErrRateLimit)
      else (respTransfer, Some (ErrDefault statusCode))
  end.
End Endpoints.


(** ** The remaining declarations of transfer.go *)

(** *** Transfer statuses, lines 15-35

    [TransferStatus] is an [int] enumerated with [iota]; the table maps the
    seven statuses to their wire names. *)
Definition TransferStatus : Type := Z.

Definition TransferStatusCreated : TransferStatus := 0.
Definition TransferStatusPending : TransferStatus := 1.
Definition TransferStatusCompleted : TransferStatus := 2.
Definition TransferStatusFailed : TransferStatus := 3.
Definition TransferStatusReversed : TransferStatus := 4.
Definition TransferStatusQueued : TransferStatus := 5.
Definition TransferStatusCanceled : TransferStatus := 6.

Definition TransferStatusStrings : gmap Z string :=
  list_to_map [
    (TransferStatusCreated, "created");
    (TransferStatusPending, "pending");
    (TransferStatusCompleted, "completed");
    (TransferStatusFailed, "failed");
    (TransferStatusReversed, "reversed");
    (TransferStatusQueued, "queued");
    (TransferStatusCanceled, "canceled") ].

(** Indexing the table, [TransferStatusStrings[s]]: a missing key reads as
    the zero value of the element type. *)
Definition TransferStatusStrings_index (s : TransferStatus) : string :=
  default "" (TransferStatusStrings !! s).

Section TransferReads.
Context `{D : Deps}.
Context `{!JsonUnmarshal SynchronousTransfer,
          !JsonUnmarshal (option (list Refund)),
          !JsonUnmarshal Refund}.

(** *** transfer.go, lines 269-297 *)

(** The query values and the URL of [GetTransfer], lines 274-279. *)
Definition GetTransfer_values (accountID : string) : url.Values :=
  let values : url.Values := ∅ in
  let values :=
    if bool_decide (accountID ≠ "")
    then url.Add "accountID" accountID values else values in
  values.

Definition GetTransfer_url (transferID : string) (accountID : string)
    : string :=
  Sprintf "%s/%s/%s?%s"
    [baseURL; pathTransfers; transferID;
     url.Encode (GetTransfer_values accountID)].


(** *** transfer.go, lines 397-445 *)

Definition ListRefunds_url (transferID : string) : string :=
  Sprintf "%s/%s/%s/refunds" [baseURL; pathTransfers; transferID].


Definition GetRefund_url (transferID : string) (refundID : string) : string :=
  Sprintf "%s/%s/%s/refunds/%s"
    [baseURL; pathTransfers; transferID; refundID].

End TransferReads.
(** ** Auxiliary notions for the statements *)

(** The options of [l] all succeed when applied in the order of the list,
    each to the builder left by its predecessor, taking [c] to [c']. *)
Inductive appliedInOrder : list callArg → callBuilder → callBuilder → Prop :=
  | appliedInOrder_nil c : appliedInOrder [] c c
  | appliedInOrder_cons a rest c c1 c2 :
      apply a c = (c1, None) →
      appliedInOrder rest c1 c2 →
      appliedInOrder (a :: rest) c c2.

(** The options that part_000 defines. *)
Inductive builtinArg : callArg → Prop :=
  | builtin_Endpoint m f args : builtinArg (Endpoint m f args)
  | builtin_JsonBody (A : Type) (M : JsonMarshal A) (b : A) :
      builtinArg (JsonBody b)
  | builtin_AcceptJson : builtinArg AcceptJson
  | builtin_WaitFor s : builtinArg (WaitFor s).


(** [if cond { values.Add(key, value) }] as one step on the query values,
    and the keys that [ListTransfers] can add, in the order of [Encode]. *)
Definition condAdd (b : bool) (k v : string) (m : url.Values) : url.Values :=
  if b then url.Add k v m else m.

(** One [key=value] pair of an encoded query, present under a guard; the
    keys of this package need no escaping. *)
Definition querySegment (b : bool) (k v : string) : list string :=
  if b then [k +:+ "=" +:+ url.QueryEscape v] else [].

Definition ListTransfers_keys : list string :=
  ["accountIDs"; "count"; "disputed"; "endDateTime"; "groupID"; "refunded";
   "skip"; "startDateTime"; "status"].

(** Modelled from the spec: the [Error] method of a classified response.
    The implementations of [CallResponse] are outside the sources at hand.
    Per sections 4.2 and 4.4 a response whose status is not completed
    converts to its classified error, a failure value and hence not nil. *)
Definition classified (resp : CallResponse) : Prop :=
  Status resp ≠ StatusCompleted → Error resp ≠ None.

(** The options of part_000 that cannot fail: all of them but a [JsonBody]
    whose value does not marshal. *)
Inductive infallibleArg : callArg → Prop :=
  | infallible_Endpoint m f args : infallibleArg (Endpoint m f args)
  | infallible_JsonBody (A : Type) (M : JsonMarshal A) (b : A) payload :
      json_Marshal b = (payload, None) → infallibleArg (JsonBody b)
  | infallible_AcceptJson : infallibleArg AcceptJson
  | infallible_WaitFor s : infallibleArg (WaitFor s).


(** Two options commute when applying them in either order gives the same
    result on every builder. *)
Definition commute (a b : callArg) : Prop :=
  ∀ c, applyAll [a; b] c = applyAll [b; a] c.

(** [b] overrides [a] when applying [a] and then [b] gives what [b] alone
    gives. *)
Definition overrides (b a : callArg) : Prop :=
  ∀ c, applyAll [a; b] c = applyAll [b] c.


(** A search payload with its account IDs replaced. *)
Definition withAccountIDs `{D : Deps} (ids : list string)
    (p : SearchQueryPayload) : SearchQueryPayload :=
  mkSearchQueryPayload ids (Query_Status p) (StartDateTime p) (EndDateTime p)
    (GroupID p) (Count p) (Skip p) (Refunded p) (Disputed p).

(** ** A concrete instantiation

    Small stand-ins for the collaborators, used to run the definitions on
    concrete inputs: times are seconds counted from the zero time, the
    payment-method structs are empty, and the codec is a toy one that reads
    a body as a plain identifier and refuses the empty body. *)
Module Demo.
#[export] Instance deps : Deps := {|
  Ctx := unit;
  Time := Z;
  Time_zero := 0;
  Time_IsZero := λ t, bool_decide (t = 0);
  Time_Format := λ t _, "T+" +:+ Sprint_int t;
  Dispute := unit;
  Wallet := unit;
  Card := unit;
  ApplePay := unit;
  CardDetails := unit;
  Wallet_zero := ();
  Card_zero := ();
  ApplePay_zero := ();
  CardDetails_zero := ();
  baseURL := "https://api.moov.io";
  pathTransfers := "transfers";
  pathBankAccounts := "/accounts/%s/bank-accounts";
  pathMicroDeposits := "/accounts/%s/bank-accounts/%s/micro-deposits"
|}.

Definition eof : GoErr := ErrExternal "unexpected end of JSON input".

(** Decoding with the toy codec: [fill] stores the identifier read from
    the body into the target. *)
Definition decodeWith {A : Type} (fill : string → A → A) : JsonUnmarshal A :=
  λ data item,
    match data with
    | [] => (item, Some eof)
    | _ => (fill (String.string_of_list_byte data) item, None)
    end.

Definition encodeWith {A : Type} (show : A → string) : JsonMarshal A :=
  λ v, (bytes_of_string (show v), None).

#[export] Instance unmarshalBankAccount : JsonUnmarshal BankAccount :=
  decodeWith (λ id b,
    mkBankAccount id (Fingerprint b) (BankAccount_Status b) (HolderName b)
      (HolderType b) (BankName b) (BankAccountType b) (AccountNumber b)
      (RoutingNumber b) (LastFourAccountNumber b)).

#[export] Instance unmarshalBankAccounts
  : JsonUnmarshal (option (list BankAccount)) :=
  decodeWith (λ id _,
    Some [mkBankAccount id "" "" "" "" "" "" "" "" ""]).

#[export] Instance marshalBankAccount : JsonMarshal BankAccount :=
  encodeWith BankAccountID.

#[export] Instance marshalAmounts : JsonMarshal (gmap string (list Z)) :=
  encodeWith (λ m,
    String.concat "," (Sprint_int <$> default [] (m !! "amounts"))).

#[export] Instance marshalCreateTransfer
  : JsonMarshal (CreateTransferReq (D := deps)) :=
  encodeWith Req_Description.

#[export] Instance unmarshalSync : JsonUnmarshal (SynchronousTransfer (D := deps)) :=
  decodeWith (λ id (t : SynchronousTransfer (D := deps)),
    mkSynchronousTransfer id (Sync_CreatedOn t) (Sync_CompletedOn t)
      (Sync_Status t) (Sync_FailureReason t) (Sync_Amount t)
      (Sync_Description t) (Sync_Metadata t) (Sync_FacilitatorFee t)
      (Sync_MoovFee t) (Sync_MoovFeeDecimal t) (Sync_MoovFeeDetails t)
      (Sync_GroupID t) (Sync_RefundedAmount t) (Sync_Refunds t)
      (Sync_DisputedAmount t) (Sync_Disputes t) (Sync_Source t)
      (Sync_Destination t)).

#[export] Instance unmarshalAsync : JsonUnmarshal (AsynchronousTransfer (D := deps)) :=
  decodeWith (λ id (t : AsynchronousTransfer (D := deps)),
    mkAsynchronousTransfer id (CreatedOn t)).

#[export] Instance unmarshalSyncs
  : JsonUnmarshal (option (list (SynchronousTransfer (D := deps)))) :=
  decodeWith (λ id _, Some []).

#[export] Instance unmarshalRefund : JsonUnmarshal (Refund (D := deps)) :=
  decodeWith (λ id (r : Refund (D := deps)),
    mkRefund id (Refund_CreatedOn r) (Refund_UpdatedOn r) (Refund_Status r)
      (FailureCode r) (Refund_Amount r) (Refund_CardDetails r)).

#[export] Instance unmarshalCanceled : JsonUnmarshal (CanceledTransfer (D := deps)) :=
  decodeWith (λ id (t : CanceledTransfer (D := deps)),
    mkCanceledTransfer (mkRefundStatus id (RefundStatus_CreatedOn (Cancellation t)))
      (CanceledTransfer_Refund t)).

(** A Go value that [json.Marshal] refuses, such as a channel. *)
Inductive Chan : Type := chan.

#[export] Instance marshalChan : JsonMarshal Chan :=
  λ _, ([], Some (ErrExternal "json: unsupported type: chan int")).

(** A response that carries a body and decodes it with the codec of the
    target, with a given status and a given [Error()] value. *)
Definition response (status : CallStatus) (data : bytes) (err : error)
  : CallResponse :=
  {| Status := status;
     Unmarshal := λ A dec item, dec data item;
     Error := err |}.

(** A client that answers every request the same way. *)
Definition client (answer : CallResponse + GoErr) (raw : bytes * Z * error)
  : Client (D := deps) :=
  {| CallHttp := λ _ _ _, answer;
     GetHTTPResponse := λ _ _ _ _, raw |}.

(** The classified error of a status, as a response's [Error()] value. *)
Definition statusError (status : CallStatus) : error :=
  Some (ErrExternal ("error from moov: " +:+ Name status)).

(** A completed response with an empty body, which does not decode. *)
Definition emptyCompleted : CallResponse := response StatusCompleted [] None.

(** A not_found response carrying its classified error. *)
Definition notFound : CallResponse :=
  response StatusNotFound [] (statusError StatusNotFound).

(** A state_conflict response carrying its classified error. *)
Definition conflict : CallResponse :=
  response StatusStateConflict [] (statusError StatusStateConflict).

(** A started response whose body names the transfer. *)
Definition startedTransfer : CallResponse :=
  response StatusStarted (bytes_of_string "tr-1") (statusError StatusStarted).

Definition someTransfer : CreateTransferReq (D := deps) :=
  mkCreateTransferReq zero zero (mkAmount "USD" 100) zero "rent" ∅.

Definition someAccount : BankAccount :=
  mkBankAccount "ba-1" "" "" "Jo Doe" "individual" "" "checking" "0004321567"
                "123456780" "".

(** Search payloads: only a negative count; two account IDs. *)
Definition negativeCount : SearchQueryPayload (D := deps) :=
  @mkSearchQueryPayload deps [] "" 0 0 "" (-1) 0 false false.

Definition twoAccounts : SearchQueryPayload (D := deps) :=
  @mkSearchQueryPayload deps ["a"; "b"] "" 0 0 "" 0 0 false false.

#[export] Instance unmarshalRefunds
  : JsonUnmarshal (option (list (Refund (D := deps)))) :=
  decodeWith (λ id _, Some [mkRefund id 0 0 "" "" (mkAmount "" 0) ()]).

Definition noAnswer : CallResponse + GoErr := inr (ErrExternal "no route").
Definition noRaw : bytes * Z * error :=
  ([], 0, Some (ErrExternal "no route")).
End Demo.
(** * Properties *)

(** ** fmt.Sprintf on the formats of the package *)

Example Sprintf_path :
  Sprintf "/accounts/%s/bank-accounts" ["acct-1"] = "/accounts/acct-1/bank-accounts".
Proof. reflexivity. Qed.

Example Sprintf_missing : Sprintf "/a/%s/b/%s" ["x"] = "/a/x/b/%!s(MISSING)".
Proof. reflexivity. Qed.

Example Sprintf_extra : Sprintf "/a" ["x"; "y"] = "/a%!(EXTRA string=x, string=y)".
Proof. reflexivity. Qed.

(** ** The option loop *)

Section OptionLoop.
Implicit Types (a : callArg) (l args pre post : list callArg).
Implicit Types (c call : callBuilder) (e : GoErr).

Lemma prependArgs_app opts args : prependArgs opts args = args ++ opts.
Proof.
  unfold prependArgs. revert args.
  induction opts as [|o opts IH]; intros args; simpl.
  - by rewrite app_nil_r.
  - rewrite IH. by rewrite <- app_assoc.
Qed.

Lemma newCall_unfold endpoint args :
  newCall endpoint args = applyAll (endpoint :: args) emptyCall.
Proof. unfold newCall. by rewrite prependArgs_app. Qed.

Lemma applyAll_total l c :
  (∃ c', applyAll l c = (Some c', None)) ∨ (∃ e, applyAll l c = (None, Some e)).
Proof.
  revert c. induction l as [|a l IH]; intros c; simpl.
  - left. eauto.
  - unfold apply. destruct (a c) as [c1 [e|]]; [right; eauto | apply IH].
Qed.

Lemma applyAll_success l c c' :
  applyAll l c = (Some c', None) ↔ appliedInOrder l c c'.
Proof.
  split.
  - revert c. induction l as [|a l IH]; intros c; simpl.
    + intros [= ->]. constructor.
    + destruct (apply a c) as [c1 [e|]] eqn:Ha; [done|].
      intros Hrest. econstructor; eauto.
  - induction 1 as [c|a rest c c1 c2 Ha _ IH]; simpl; [done|].
    by rewrite Ha.
Qed.

Lemma applyAll_stops pre a post c c1 c2 e :
  appliedInOrder pre c c1 →
  apply a c1 = (c2, Some e) →
  applyAll (pre ++ a :: post) c = (None, Some e).
Proof.
  induction 1 as [c|a0 rest c c0 c1 Ha0 _ IH]; intros Ha; simpl.
  - by rewrite Ha.
  - rewrite Ha0. by apply IH.
Qed.

Lemma applyAll_failure l c e :
  applyAll l c = (None, Some e) →
  ∃ pre a post c1 c2,
    l = pre ++ a :: post ∧ appliedInOrder pre c c1 ∧ apply a c1 = (c2, Some e).
Proof.
  revert c. induction l as [|a l IH]; intros c; simpl; [done|].
  destruct (apply a c) as [c1 [e'|]] eqn:Ha.
  - intros [= ->]. exists [], a, l, c, c1. repeat split; [constructor | done].
  - intros (pre & a' & post & c2 & c3 & -> & Hpre & Ha')%IH.
    exists (a :: pre), a', post, c2, c3.
    repeat split; [econstructor; eauto | done].
Qed.

Lemma appliedInOrder_app l1 l2 c c' :
  appliedInOrder (l1 ++ l2) c c' ↔
  ∃ c1, appliedInOrder l1 c c1 ∧ appliedInOrder l2 c1 c'.
Proof.
  split.
  - revert c. induction l1 as [|a l1 IH]; intros c; simpl.
    + intros Hl. exists c. split; [constructor | done].
    + inversion 1 as [|? ? ? c1 ? Ha Hrest]; subst.
      destruct (IH _ Hrest) as (c2 & H1 & H2).
      exists c2. split; [econstructor; eauto | done].
  - intros (c1 & H1 & H2). induction H1; simpl; [done|].
    econstructor; eauto.
Qed.

(** Every option of part_000 leaves the headers other than the one it
    writes as they were. *)
Lemma builtinArg_headers a c c' k :
  builtinArg a → apply a c = (c', None) →
  k ≠ "Context-Type" → k ≠ "Accept" → k ≠ "X-Wait-For" →
  headers c' !! k = headers c !! k.
Proof.
  intros Ha Happ Hk1 Hk2 Hk3. destruct Ha; unfold apply in Happ; simpl in Happ.
  - by injection Happ as <-.
  - unfold JsonBody, callBuilderFn in Happ.
    destruct (json_Marshal b) as [payload [e|]]; [done|].
    injection Happ as <-. simpl. by rewrite lookup_insert_ne.
  - injection Happ as <-. simpl. by rewrite lookup_insert_ne.
  - injection Happ as <-. simpl. by rewrite lookup_insert_ne.
Qed.

Lemma appliedInOrder_builtin_headers l c c' k :
  Forall builtinArg l → appliedInOrder l c c' →
  k ≠ "Context-Type" → k ≠ "Accept" → k ≠ "X-Wait-For" →
  headers c' !! k = headers c !! k.
Proof.
  intros Hall Hrun Hk1 Hk2 Hk3.
  induction Hrun as [c|a rest c c1 c2 Ha _ IH]; [done|].
  apply Forall_cons in Hall as [Hb Hall].
  rewrite (IH Hall). by eapply builtinArg_headers.
Qed.
End OptionLoop.

(** ** Call statuses *)

(** C1. Among the ten defined call statuses the retryability flag is true
    exactly for the ones named started, rate_limited and server_error, and
    false for completed, bad_request, state_conflict, failed_validation,
    not_found, unauthenticated and unauthorized. *)
Theorem retryable_exactly_started_rate_limited_server_error :
  Forall (λ s, Retryable s = true ↔
               Name s ∈ ["started"; "rate_limited"; "server_error"])
         definedStatuses
  ∧ Forall (λ s, Retryable s = false ↔
                 Name s ∈ ["completed"; "bad_request"; "state_conflict";
                           "failed_validation"; "not_found";
                           "unauthenticated"; "unauthorized"])
           definedStatuses
  ∧ Name <$> definedStatuses =
      ["completed"; "started"; "bad_request"; "state_conflict";
       "failed_validation"; "not_found"; "unauthenticated"; "unauthorized";
       "rate_limited"; "server_error"]
  ∧ Retryable <$> definedStatuses =
      [false; true; false; false; false; false; false; false; true; true].
Proof.
  split_and!; [| | reflexivity | reflexivity].
  - apply (bool_decide_unpack _). by vm_compute.
  - apply (bool_decide_unpack _). by vm_compute.
Qed.

(** ** Call construction *)

(** C8. [newCall] applies the endpoint option first and then the caller's
    options in the order given: it succeeds with a builder exactly when all
    of them succeed in that order, each on the builder left by the one
    before, so that the last write to a field wins. If an option fails after
    its predecessors succeeded, [newCall] returns that error and no builder,
    whatever options come after it; and [newCall] always ends in one of
    these two ways. *)
Theorem newCall_applies_options_in_order
    (endpoint : EndpointArg) (args : list callArg) :
  (∀ call, newCall endpoint args = (Some call, None) ↔
           appliedInOrder (endpoint :: args) emptyCall call)
  ∧ (∀ pre a post c1 c2 e,
       endpoint :: args = pre ++ a :: post →
       appliedInOrder pre emptyCall c1 →
       apply a c1 = (c2, Some e) →
       newCall endpoint args = (None, Some e)
       ∧ ∀ post', applyAll (pre ++ a :: post') emptyCall = (None, Some e))
  ∧ ((∃ call, newCall endpoint args = (Some call, None))
     ∨ (∃ e pre a post c1 c2,
          newCall endpoint args = (None, Some e)
          ∧ endpoint :: args = pre ++ a :: post
          ∧ appliedInOrder pre emptyCall c1
          ∧ apply a c1 = (c2, Some e)))
  ∧ (∀ earlier a c1 call,
       args = earlier ++ [a] →
       appliedInOrder (endpoint :: earlier) emptyCall c1 →
       apply a c1 = (call, None) →
       newCall endpoint args = (Some call, None)).
Proof.
  rewrite newCall_unfold. split_and!.
  - intros call. apply applyAll_success.
  - intros pre a post c1 c2 e -> Hpre Ha. split.
    + by eapply applyAll_stops.
    + intros post'. by eapply applyAll_stops.
  - destruct (applyAll_total (endpoint :: args) emptyCall) as [[c Hc]|[e He]].
    + left. eauto.
    + right. destruct (applyAll_failure _ _ _ He)
        as (pre & a & post & c1 & c2 & Heq & Hpre & Ha).
      exists e, pre, a, post, c1, c2. by rewrite He.
  - intros earlier a c1 call -> Hpre Ha.
    apply applyAll_success.
    change (endpoint :: earlier ++ [a]) with ((endpoint :: earlier) ++ [a]).
    apply appliedInOrder_app. exists c1. split; [done|].
    econstructor; [done | constructor].
Qed.

(** C9. When marshalling the value succeeds, the [JsonBody] option writes
    the header whose key is literally Context-Type (not Content-Type) with
    the value application/json, stores the marshalled bytes as the request
    body and touches nothing else; and no call built from the options that
    this file defines has a header named Content-Type. *)
Theorem JsonBody_sets_Context_Type_header
    {A : Type} `{!JsonMarshal A} (v : A) (payload : bytes) (call : callBuilder) :
  json_Marshal v = (payload, None) →
  (∃ call',
      apply (JsonBody v) call = (call', None)
      ∧ headers call' = <["Context-Type" := "application/json"]> (headers call)
      ∧ headers call' !! "Context-Type" = Some "application/json"
      ∧ headers call' !! "Content-Type" = headers call !! "Content-Type"
      ∧ body call' = Some payload
      ∧ method call' = method call ∧ path call' = path call
      ∧ params call' = params call ∧ token call' = token call)
  ∧ (∀ endpoint args built,
       builtinArg endpoint → Forall builtinArg args →
       newCall endpoint args = (Some built, None) →
       headers built !! "Content-Type" = None).
Proof.
  intros Hm. split.
  - unfold apply, JsonBody, callBuilderFn. rewrite Hm.
    eexists. split; [reflexivity|]. simpl.
    split_and!; try reflexivity.
    + by rewrite lookup_insert_eq.
    + by rewrite lookup_insert_ne.
  - intros endpoint args built Hep Hargs Hnew.
    rewrite newCall_unfold in Hnew. apply applyAll_success in Hnew.
    rewrite (appliedInOrder_builtin_headers (endpoint :: args) emptyCall built);
      [done | by constructor | done | done | done | done].
Qed.

(** ** Decode helpers and outcome combinators *)

Section Combinators.
Context {A : Type} `{!GoZero A, !JsonUnmarshal A,
                     !JsonUnmarshal (option (list A))}.
Implicit Types (resp : CallResponse).

Lemma UnmarshalObjectResponse_ok resp (item : A) :
  Unmarshal resp (zero : A) = (item, None) →
  UnmarshalObjectResponse resp = (Some item, None).
Proof. unfold UnmarshalObjectResponse. by intros ->. Qed.

Lemma UnmarshalObjectResponse_err resp (item : A) e :
  Unmarshal resp (zero : A) = (item, Some e) →
  UnmarshalObjectResponse (A := A) resp = (None, Some e).
Proof. unfold UnmarshalObjectResponse. by intros ->. Qed.

Lemma UnmarshalListResponse_ok resp (l : option (list A)) :
  Unmarshal resp (Some [] : option (list A)) = (l, None) →
  UnmarshalListResponse resp = (l, None).
Proof. unfold UnmarshalListResponse. by intros ->. Qed.

Lemma UnmarshalListResponse_err resp (l : option (list A)) e :
  Unmarshal resp (Some [] : option (list A)) = (l, Some e) →
  UnmarshalListResponse (A := A) resp = (None, Some e).
Proof. unfold UnmarshalListResponse. by intros ->. Qed.

(** C3, as amended. For every classified response: [CompletedNilOrError]
    returns nil exactly when the status is completed. On a completed
    status the object and list combinators return the outcome of decoding:
    the decoded object or list with a nil error when decoding succeeds, a
    nil pointer or nil slice with the decode error when it fails. On every
    other status all three return the response's error, which is not nil,
    together with a nil pointer or nil slice; an object or a list is
    returned only on a completed status. *)
Theorem completed_combinators_outcome resp :
  classified resp →
  (CompletedNilOrError resp = None ↔ Status resp = StatusCompleted)
  ∧ (Status resp = StatusCompleted →
       (∀ item : A, Unmarshal resp (zero : A) = (item, None) →
          CompletedObjectOrError resp = (Some item, None))
       ∧ (∀ (item : A) e, Unmarshal resp (zero : A) = (item, Some e) →
          CompletedObjectOrError (A := A) resp = (None, Some e))
       ∧ (∀ l : option (list A),
            Unmarshal resp (Some [] : option (list A)) = (l, None) →
            CompletedListOrError resp = (l, None))
       ∧ (∀ (l : option (list A)) e,
            Unmarshal resp (Some [] : option (list A)) = (l, Some e) →
            CompletedListOrError (A := A) resp = (None, Some e)))
  ∧ (Status resp ≠ StatusCompleted →
       ∃ e, Error resp = Some e
            ∧ CompletedNilOrError resp = Some e
            ∧ CompletedObjectOrError (A := A) resp = (None, Some e)
            ∧ CompletedListOrError (A := A) resp = (None, Some e))
  ∧ (∀ obj : A, (CompletedObjectOrError resp).1 = Some obj →
       Status resp = StatusCompleted)
  ∧ (∀ l : list A, (CompletedListOrError resp).1 = Some l →
       Status resp = StatusCompleted).
Proof.
  intros Hcl. unfold classified in Hcl.
  unfold CompletedNilOrError, CompletedObjectOrError, CompletedListOrError.
  destruct (decide (Status resp = StatusCompleted)) as [Hs|Hs].
  - split_and!; try done.
    intros _. split_and!.
    + apply UnmarshalObjectResponse_ok.
    + apply UnmarshalObjectResponse_err.
    + apply UnmarshalListResponse_ok.
    + apply UnmarshalListResponse_err.
  - specialize (Hcl Hs). destruct (Error resp) as [e|] eqn:He; [|done].
    split_and!; try done.
    intros _. by exists e.
Qed.
End Combinators.

(** ** Endpoints *)

Section EndpointFacts.
Context `{D : Deps}.
Context `{!JsonMarshal BankAccount, !JsonUnmarshal BankAccount,
          !JsonUnmarshal (option (list BankAccount)),
          !JsonMarshal (gmap string (list Z)),
          !JsonMarshal CreateTransferReq,
          !JsonUnmarshal SynchronousTransfer,
          !JsonUnmarshal AsynchronousTransfer,
          !JsonUnmarshal (option (list SynchronousTransfer)),
          !JsonUnmarshal Refund, !JsonUnmarshal CanceledTransfer}.
Implicit Types (c : Client) (ctx : Ctx) (resp : CallResponse).

(** C2. On an HTTP 400 answer, with no transport error, [RefundTransfer]
    and [ReverseTransfer] return the zero value together with a nil
    error: the error variable they try to fill from the body stays nil. *)
Theorem RefundTransfer_ReverseTransfer_bad_request_nil_error
    (callHttp : Ctx → EndpointArg → list callArg → CallResponse + GoErr)
    (data : bytes) (uuidV4 transferID : string) (isSync : bool) (amount : Z) :
  RefundTransfer
    (mkClient callHttp (λ _ _ _ _, (data, http.StatusBadRequest, None)))
    uuidV4 transferID isSync amount = (zero, None)
  ∧ ReverseTransfer
      (mkClient callHttp (λ _ _ _ _, (data, http.StatusBadRequest, None)))
      uuidV4 transferID amount = (zero, None).
Proof. split; reflexivity. Qed.

(** C4, as amended. For a [CreateTransfer] call with [isSync = true] that
    receives a response: if it classifies as completed and its body
    decodes, the result is the decoded non-nil synchronous transfer, a nil
    asynchronous transfer and a nil error; if it classifies as started and
    its body decodes, the result is a nil synchronous transfer, the
    decoded non-nil asynchronous transfer, which consists of the
    transferID and createdOn fields only, and a nil error. When the body
    does not decode, both transfers are nil and the decode error is
    returned. *)
Theorem CreateTransfer_sync_completed_or_started
    c ctx (transfer : CreateTransferReq) resp :
  CallHttp c ctx (Endpoint http.MethodPost pathTransfers [])
           [AcceptJson; JsonBody transfer; WaitFor "rail-response"]
    = inl resp →
  (Status resp = StatusCompleted →
     (∀ st, Unmarshal resp (zero : SynchronousTransfer) = (st, None) →
        CreateTransfer c ctx transfer true = (Some st, None, None))
     ∧ (∀ st e, Unmarshal resp (zero : SynchronousTransfer) = (st, Some e) →
        CreateTransfer c ctx transfer true = (None, None, Some e)))
  ∧ (Status resp = StatusStarted →
       (∀ st, Unmarshal resp (zero : AsynchronousTransfer) = (st, None) →
          CreateTransfer c ctx transfer true = (None, Some st, None)
          ∧ st = {| TransferID := TransferID st; CreatedOn := CreatedOn st |})
       ∧ (∀ st e, Unmarshal resp (zero : AsynchronousTransfer) = (st, Some e) →
          CreateTransfer c ctx transfer true = (None, None, Some e))).
Proof.
  intros Hcall. unfold CreateTransfer, CreateTransfer_args. simpl.
  rewrite Hcall. split; intros Hs.
  - rewrite decide_True by done. split.
    + intros st Hd. by rewrite (UnmarshalObjectResponse_ok _ _ Hd).
    + intros st e Hd. by rewrite (UnmarshalObjectResponse_err _ _ _ Hd).
  - rewrite decide_False by (by rewrite Hs).
    rewrite decide_True by done. split.
    + intros st Hd. rewrite (UnmarshalObjectResponse_ok _ _ Hd).
      split; [done | by destruct st].
    + intros st e Hd. by rewrite (UnmarshalObjectResponse_err _ _ _ Hd).
Qed.

(** C5. A [CreateTransfer] call whose response classifies as
    state_conflict, and a [RefundTransfer] or [ReverseTransfer] call
    answered with HTTP 409, return [ErrXIdempotencyKey], which is not the
    default error of any status code. *)
Theorem idempotency_conflict_returns_ErrXIdempotencyKey c :
  (∀ ctx (transfer : CreateTransferReq) isSync resp,
     CallHttp c ctx (Endpoint http.MethodPost pathTransfers [])
              (CreateTransfer_args transfer isSync) = inl resp →
     Status resp = StatusStateConflict →
     CreateTransfer c ctx transfer isSync
       = (None, None, Some ErrXIdempotencyKey))
  ∧ (∀ uuidV4 transferID isSync amount data,
       GetHTTPResponse c http.MethodPost (RefundTransfer_url transferID)
         (Some (PayloadRefund {| RefundPayload_Amount := amount |}))
         (RefundTransfer_header uuidV4 isSync)
         = (data, http.StatusConflict, None) →
       RefundTransfer c uuidV4 transferID isSync amount
         = (zero, Some ErrXIdempotencyKey))
  ∧ (∀ uuidV4 transferID amount data,
       GetHTTPResponse c http.MethodPost (ReverseTransfer_url transferID)
         (Some (PayloadRefund {| RefundPayload_Amount := amount |}))
         (ReverseTransfer_header uuidV4)
         = (data, http.StatusConflict, None) →
       ReverseTransfer c uuidV4 transferID amount
         = (zero, Some ErrXIdempotencyKey))
  ∧ (∀ statusCode, ErrXIdempotencyKey ≠ ErrDefault statusCode).
Proof.
  split_and!.
  - intros ctx transfer isSync resp Hcall Hs. unfold CreateTransfer.
    simpl. rewrite Hcall, Hs. reflexivity.
  - intros uuidV4 transferID isSync amount data Hraw.
    unfold RefundTransfer. simpl. rewrite Hraw. reflexivity.
  - intros uuidV4 transferID amount data Hraw.
    unfold ReverseTransfer. simpl. rewrite Hraw. reflexivity.
  - done.
Qed.

(** C7. [CreateBankAccount] returns [ErrDuplicateBankAccount] when the
    response classifies as state_conflict; [MicroDepositConfirm] returns
    [ErrNoMicroDeposit] when it classifies as not_found and
    [ErrAmountIncorrect] when it classifies as state_conflict. In the
    three cases the result does not depend on the response's own error,
    and the three named errors are pairwise distinct. *)
Theorem bank_account_statuses_map_to_named_errors c ctx :
  (∀ accountID (bankAccount : BankAccount) resp,
     CallHttp c ctx (Endpoint http.MethodPost pathBankAccounts [accountID])
              [AcceptJson; JsonBody bankAccount] = inl resp →
     Status resp = StatusStateConflict →
     CreateBankAccount c ctx accountID bankAccount
       = (None, Some ErrDuplicateBankAccount))
  ∧ (∀ accountID bankAccountID amounts resp,
       CallHttp c ctx
         (Endpoint http.MethodPut pathMicroDeposits [accountID; bankAccountID])
         [AcceptJson;
          JsonBody ({["amounts" := amounts]} : gmap string (list Z))]
         = inl resp →
       (Status resp = StatusNotFound →
          MicroDepositConfirm c ctx accountID bankAccountID amounts
            = Some ErrNoMicroDeposit)
       ∧ (Status resp = StatusStateConflict →
            MicroDepositConfirm c ctx accountID bankAccountID amounts
              = Some ErrAmountIncorrect))
  ∧ ErrDuplicateBankAccount ≠ ErrNoMicroDeposit
  ∧ ErrNoMicroDeposit ≠ ErrAmountIncorrect
  ∧ ErrDuplicateBankAccount ≠ ErrAmountIncorrect.
Proof.
  split_and!; try done.
  - intros accountID bankAccount resp Hcall Hs.
    unfold CreateBankAccount. rewrite Hcall, Hs. reflexivity.
  - intros accountID bankAccountID amounts resp Hcall.
    unfold MicroDepositConfirm. rewrite Hcall.
    split; intros ->; reflexivity.
Qed.

(** C10. [GetBankAccount] and [DeleteBankAccount] do not use their
    [bankAccountID] argument: for a fixed client, context and account ID
    the result is the same for any two bank-account IDs, and with a client
    built on the call builder the request handed to the transport
    (method, path, headers, query parameters, body) is determined by
    the account ID alone. *)
Theorem bankAccountID_is_ignored c ctx (accountID b1 b2 : string) :
  GetBankAccount c ctx accountID b1 = GetBankAccount c ctx accountID b2
  ∧ DeleteBankAccount c ctx accountID b1 = DeleteBankAccount c ctx accountID b2
  ∧ (∀ roundTrip raw b,
       GetBankAccount (builderClient roundTrip raw) ctx accountID b =
       match roundTrip ctx
               (Some {| method := "GET";
                        path := Sprintf pathBankAccounts [accountID];
                        params := ∅;
                        headers := {["Accept" := "application/json"]};
                        token := None;
                        body := None |}) with
       | inl resp => CompletedObjectOrError resp
       | inr err => (None, Some err)
       end)
  ∧ (∀ roundTrip raw b,
       DeleteBankAccount (builderClient roundTrip raw) ctx accountID b =
       match roundTrip ctx
               (Some {| method := "DELETE";
                        path := Sprintf pathBankAccounts [accountID];
                        params := ∅;
                        headers := ∅;
                        token := None;
                        body := None |}) with
       | inl resp => CompletedNilOrError resp
       | inr err => Some err
       end).
Proof.
  split_and!; [reflexivity | reflexivity | |].
  - intros roundTrip raw b. unfold GetBankAccount, builderClient. simpl.
    reflexivity.
  - intros roundTrip raw b. unfold DeleteBankAccount, builderClient. simpl.
    reflexivity.
Qed.
(** The branches of [RefundTransfer] and [ReverseTransfer] beside the
    success and the 400 branch: a transport error is returned as it is, and
    with no transport error a status code other than 200, 202 and 400
    yields a non-nil error: [ErrXIdempotencyKey] for 409, [ErrRequestBody]
    for 422, [ErrRateLimit] for 429 and [ErrDefault] of the code
    otherwise. *)
Theorem RefundTransfer_ReverseTransfer_failure_statuses
    c (uuidV4 transferID : string) (isSync : bool) (amount : Z) :
  (∀ data statusCode e,
     GetHTTPResponse c http.MethodPost (RefundTransfer_url transferID)
       (Some (PayloadRefund {| RefundPayload_Amount := amount |}))
       (RefundTransfer_header uuidV4 isSync) = (data, statusCode, Some e) →
     RefundTransfer c uuidV4 transferID isSync amount = (zero, Some e))
  ∧ (∀ data statusCode,
       GetHTTPResponse c http.MethodPost (RefundTransfer_url transferID)
         (Some (PayloadRefund {| RefundPayload_Amount := amount |}))
         (RefundTransfer_header uuidV4 isSync) = (data, statusCode, None) →
       statusCode ≠ 200 → statusCode ≠ 202 → statusCode ≠ 400 →
       RefundTransfer c uuidV4 transferID isSync amount =
         (zero,
          Some (if decide (statusCode = 409) then ErrXIdempotencyKey
                else if decide (statusCode = 422) then ErrRequestBody
                else if decide (statusCode = 429) then ErrRateLimit
                else ErrDefault statusCode)))
  ∧ (∀ data statusCode e,
       GetHTTPResponse c http.MethodPost (ReverseTransfer_url transferID)
         (Some (PayloadRefund {| RefundPayload_Amount := amount |}))
         (ReverseTransfer_header uuidV4) = (data, statusCode, Some e) →
       ReverseTransfer c uuidV4 transferID amount = (zero, Some e))
  ∧ (∀ data statusCode,
       GetHTTPResponse c http.MethodPost (ReverseTransfer_url transferID)
         (Some (PayloadRefund {| RefundPayload_Amount := amount |}))
         (ReverseTransfer_header uuidV4) = (data, statusCode, None) →
       statusCode ≠ 200 → statusCode ≠ 202 → statusCode ≠ 400 →
       ReverseTransfer c uuidV4 transferID amount =
         (zero,
          Some (if decide (statusCode = 409) then ErrXIdempotencyKey
                else if decide (statusCode = 422) then ErrRequestBody
                else if decide (statusCode = 429) then ErrRateLimit
                else ErrDefault statusCode))).
Proof.
  split_and!.
  - intros data statusCode e Hraw. unfold RefundTransfer. simpl.
    by rewrite Hraw.
  - intros data statusCode Hraw H200 H202 H400.
    unfold RefundTransfer. simpl. rewrite Hraw.
    unfold http.StatusOK, http.StatusAccepted, http.StatusBadRequest,
      http.StatusConflict, http.StatusUnprocessableEntity,
      http.StatusTooManyRequests.
    rewrite decide_False by (intros [?|?]; done).
    rewrite (decide_False (P := statusCode = 400)) by done.
    by repeat case_decide.
  - intros data statusCode e Hraw. unfold ReverseTransfer. simpl.
    by rewrite Hraw.
  - intros data statusCode Hraw H200 H202 H400.
    unfold ReverseTransfer. simpl. rewrite Hraw.
    unfold http.StatusOK, http.StatusAccepted, http.StatusBadRequest,
      http.StatusConflict, http.StatusUnprocessableEntity,
      http.StatusTooManyRequests.
    rewrite decide_False by (intros [?|?]; done).
    rewrite (decide_False (P := statusCode = 400)) by done.
    by repeat case_decide.
Qed.

(** An error returned by [CallHttp] (a construction or transport error)
    is handed to the caller as it is, with nil results, by every endpoint
    built on the call builder. *)
Theorem CallHttp_errors_pass_through c ctx (e : GoErr) :
  (∀ accountID (bankAccount : BankAccount),
     CallHttp c ctx (Endpoint http.MethodPost pathBankAccounts [accountID])
              [AcceptJson; JsonBody bankAccount] = inr e →
     CreateBankAccount c ctx accountID bankAccount = (None, Some e))
  ∧ (∀ accountID bankAccountID,
       CallHttp c ctx (Endpoint http.MethodGet pathBankAccounts [accountID])
                [AcceptJson] = inr e →
       GetBankAccount c ctx accountID bankAccountID = (None, Some e)
       ∧ ListBankAccounts c ctx accountID = (None, Some e))
  ∧ (∀ accountID bankAccountID,
       CallHttp c ctx (Endpoint http.MethodDelete pathBankAccounts [accountID])
                [] = inr e →
       DeleteBankAccount c ctx accountID bankAccountID = Some e)
  ∧ (∀ accountID bankAccountID,
       CallHttp c ctx
         (Endpoint http.MethodPost pathMicroDeposits [accountID; bankAccountID])
         [] = inr e →
       MicroDepositInitiate c ctx accountID bankAccountID = Some e)
  ∧ (∀ accountID bankAccountID amounts,
       CallHttp c ctx
         (Endpoint http.MethodPut pathMicroDeposits [accountID; bankAccountID])
         [AcceptJson;
          JsonBody ({["amounts" := amounts]} : gmap string (list Z))] = inr e →
       MicroDepositConfirm c ctx accountID bankAccountID amounts = Some e)
  ∧ (∀ (transfer : CreateTransferReq) isSync,
       CallHttp c ctx (Endpoint http.MethodPost pathTransfers [])
                (CreateTransfer_args transfer isSync) = inr e →
       CreateTransfer c ctx transfer isSync = (None, None, Some e)).
Proof.
  split_and!.
  - intros ?? Hc. unfold CreateBankAccount. by rewrite Hc.
  - intros ?? Hc. unfold GetBankAccount, ListBankAccounts. by rewrite Hc.
  - intros ?? Hc. unfold DeleteBankAccount. by rewrite Hc.
  - intros ?? Hc. unfold MicroDepositInitiate. by rewrite Hc.
  - intros ??? Hc. unfold MicroDepositConfirm. by rewrite Hc.
  - intros ?? Hc. unfold CreateTransfer. simpl. by rewrite Hc.
Qed.
End EndpointFacts.

(** ** Query strings *)

(** *** The order of the keys *)

Lemma string_compare_refl (s : string) : String.compare s s = Eq.
Proof.
  induction s as [|c s IH]; simpl; [done|].
  unfold Ascii.compare. by rewrite N.compare_refl.
Qed.

Lemma string_compare_not_Gt_trans (a b c : string) :
  String.compare a b ≠ Gt → String.compare b c ≠ Gt → String.compare a c ≠ Gt.
Proof.
  revert b c. induction a as [|x a IH]; intros [|y b] [|z c]; simpl; try done.
  unfold Ascii.compare.
  destruct (N.compare_spec (N_of_ascii x) (N_of_ascii y)) as [Hxy|Hxy|Hxy];
    destruct (N.compare_spec (N_of_ascii y) (N_of_ascii z)) as [Hyz|Hyz|Hyz];
    try done; intros Hab Hbc.
  - rewrite Hxy, Hyz, N.compare_refl. by eapply IH.
  - by rewrite (proj2 (N.compare_lt_iff _ _)) by lia.
  - by rewrite (proj2 (N.compare_lt_iff _ _)) by lia.
  - by rewrite (proj2 (N.compare_lt_iff _ _)) by lia.
Qed.

#[local] Instance stringLe_trans : Transitive url.stringLe.
Proof.
  intros a b c. unfold url.stringLe, String.leb. intros Hab Hbc.
  pose proof (string_compare_not_Gt_trans a b c) as Ht.
  destruct (String.compare a b), (String.compare b c), (String.compare a c);
    try done; exfalso; by apply Ht.
Qed.

#[local] Instance stringLe_total : Total url.stringLe.
Proof. intros a b. apply String.leb_total. Qed.

#[local] Instance stringLe_antisym : AntiSymm (=) url.stringLe.
Proof. intros a b. apply String.leb_antisym. Qed.


Lemma StronglySorted_filter {A} (R : relation A) (P : A → Prop)
    `{∀ x, Decision (P x)} (l : list A) :
  StronglySorted R l → StronglySorted R (filter P l).
Proof.
  induction 1 as [|x l Hl IH Hx]; [constructor|].
  rewrite filter_cons. destruct (decide (P x)); [|done].
  constructor; [done|].
  apply Forall_forall. intros y [_ Hy]%list_elem_of_filter.
  by eapply Forall_forall in Hx.
Qed.

Lemma sortKeys_dom (v : url.Values) (K : list string) :
  StronglySorted url.stringLe K → NoDup K →
  (∀ k, is_Some (v !! k) → k ∈ K) →
  url.sortKeys (elements (dom v)) = filter (λ k, is_Some (v !! k)) K.
Proof.
  intros HK Hnd Hsub. unfold url.sortKeys.
  apply (StronglySorted_unique url.stringLe).
  - apply StronglySorted_merge_sort; apply _.
  - by apply StronglySorted_filter.
  - rewrite merge_sort_Permutation.
    apply NoDup_Permutation.
    + apply NoDup_elements.
    + by apply NoDup_filter.
    + intros k. rewrite elem_of_elements, elem_of_dom, list_elem_of_filter.
      split; [intros Hk; split; [done | by apply Hsub] | by intros [Hk _]].
Qed.

Lemma mjoin_fmap_filter_empty {A B} (P : A → Prop) `{∀ x, Decision (P x)}
    (f : A → list B) (l : list A) :
  (∀ x, ¬ P x → f x = []) →
  mjoin (f <$> filter P l) = mjoin (f <$> l).
Proof.
  intros Hf. induction l as [|x l IH]; [done|].
  rewrite filter_cons. destruct (decide (P x)) as [Hx|Hx].
  - change (f x ++ mjoin (f <$> filter P l) = f x ++ mjoin (f <$> l)).
    by rewrite IH.
  - change (mjoin (f <$> filter P l) = f x ++ mjoin (f <$> l)).
    by rewrite (Hf x Hx), IH.
Qed.

Lemma Encode_sorted_keys (v : url.Values) (K : list string) :
  StronglySorted url.stringLe K → NoDup K →
  (∀ k, is_Some (v !! k) → k ∈ K) →
  url.Encode v =
  String.concat "&" (mjoin ((λ k, url.encodePairs k (default [] (v !! k))) <$> K)).
Proof.
  intros HK Hnd Hsub. unfold url.Encode.
  rewrite (sortKeys_dom v K HK Hnd Hsub).
  rewrite mjoin_fmap_filter_empty; [done|].
  intros k Hk. destruct (v !! k) eqn:E; [|done].
  exfalso. apply Hk. eauto.
Qed.

(** *** Conditional additions *)

Lemma lookup_condAdd_ne b k v (m : url.Values) k' :
  k ≠ k' → condAdd b k v m !! k' = m !! k'.
Proof.
  intros Hk. unfold condAdd, url.Add. destruct b; [|done].
  by rewrite lookup_insert_ne.
Qed.

Lemma lookup_condAdd_fresh b k v (m : url.Values) :
  m !! k = None → condAdd b k v m !! k = if b then Some [v] else None.
Proof.
  intros Hm. unfold condAdd, url.Add. destruct b; [|done].
  by rewrite lookup_insert_eq, Hm.
Qed.

Lemma string_get_elem_of (s : string) (i : nat) (c : ascii) :
  String.get i s = Some c → c ∈ String.list_ascii_of_string s.
Proof.
  revert i. induction s as [|x s IH]; intros i; simpl; [done|].
  destruct i as [|i]; [intros [= ->]; left | intros Hi; right; eauto].
Qed.

Lemma upperhex_not_separator (n : N) :
  url.upperhex n ≠ "&"%char ∧ url.upperhex n ≠ "="%char.
Proof.
  assert (Hin : url.upperhex n ∈ String.list_ascii_of_string "0123456789ABCDEF").
  { unfold url.upperhex.
    destruct (String.get (N.to_nat n) "0123456789ABCDEF") as [c|] eqn:Hc.
    - exact (string_get_elem_of _ _ _ Hc).
    - simpl. left. }
  revert Hin. generalize (url.upperhex n). intros c Hc.
  assert (Hall : Forall (λ c, c ≠ "&"%char ∧ c ≠ "="%char)
                        (String.list_ascii_of_string "0123456789ABCDEF")).
  { apply (bool_decide_unpack _). by vm_compute. }
  by eapply Forall_forall in Hall.
Qed.

Lemma QueryEscape_no_separator (s : string) :
  Forall (λ c, c ≠ "&"%char ∧ c ≠ "="%char)
         (String.list_ascii_of_string (url.QueryEscape s)).
Proof.
  induction s as [|c s IH]; simpl; [constructor|].
  destruct (url.shouldEscape c) eqn:Hesc.
  - case_bool_decide; simpl.
    + by constructor.
    + repeat (constructor; [try done; apply upperhex_not_separator|]). done.
  - simpl. constructor; [|done].
    split; intros ->; by vm_compute in Hesc.
Qed.

Lemma ListTransfers_keys_sorted : StronglySorted url.stringLe ListTransfers_keys.
Proof. apply (bool_decide_unpack _). by vm_compute. Qed.

Lemma ListTransfers_keys_NoDup : NoDup ListTransfers_keys.
Proof. apply (bool_decide_unpack _). by vm_compute. Qed.

Lemma encodePairs_cond (b : bool) (k x : string) :
  url.QueryEscape k = k →
  url.encodePairs k (default [] (if b then Some [x] else None)) =
  querySegment b k x.
Proof. intros Hk. destruct b; simpl; [|done]. by rewrite Hk. Qed.


Section QueryFacts.
Context `{D : Deps}.

Lemma ListTransfers_values_condAdd (p : SearchQueryPayload) :
  ListTransfers_values p =
  condAdd (Disputed p) "disputed" "true"
   (condAdd (Refunded p) "refunded" "true"
   (condAdd (bool_decide (0 < Skip p)) "skip" (Sprint_int (Skip p))
   (condAdd (bool_decide (0 < Count p)) "count" (Sprint_int (Count p))
   (condAdd (bool_decide (GroupID p ≠ "")) "groupID" (GroupID p)
   (condAdd (negb (Time_IsZero (EndDateTime p))) "endDateTime"
            (Time_Format (EndDateTime p) RFC3339)
   (condAdd (negb (Time_IsZero (StartDateTime p))) "startDateTime"
            (Time_Format (StartDateTime p) RFC3339)
   (condAdd (bool_decide (Query_Status p ≠ "")) "status" (Query_Status p)
   (condAdd (bool_decide (0 < Z.of_nat (length (AccountIDs p)))) "accountIDs"
            (strings_Join (AccountIDs p) ",") ∅)))))))).
Proof. reflexivity. Qed.

Ltac lookup_values :=
  rewrite ListTransfers_values_condAdd;
  rewrite ?lookup_condAdd_ne by done;
  rewrite lookup_condAdd_fresh
    by (rewrite ?lookup_condAdd_ne by done; apply lookup_empty).

Lemma ListTransfers_values_other (p : SearchQueryPayload) (k : string) :
  k ∉ ListTransfers_keys → ListTransfers_values p !! k = None.
Proof.
  intros Hk. rewrite ListTransfers_values_condAdd.
  rewrite !lookup_condAdd_ne; [apply lookup_empty|..];
    intros <-; apply Hk; unfold ListTransfers_keys; set_solver.
Qed.

Lemma nonempty_length_pos {A} (l : list A) :
  bool_decide (0 < Z.of_nat (length l)) = bool_decide (l ≠ []).
Proof. apply bool_decide_ext. destruct l; simpl; [done|]. split; [done|lia]. Qed.


Lemma ListTransfers_values_lookup (payload : SearchQueryPayload) :
  ListTransfers_values payload !! "accountIDs" =
    (if bool_decide (AccountIDs payload ≠ [])
     then Some [strings_Join (AccountIDs payload) ","] else None)
  ∧ ListTransfers_values payload !! "status" =
      (if bool_decide (Query_Status payload ≠ "")
       then Some [Query_Status payload] else None)
  ∧ ListTransfers_values payload !! "startDateTime" =
      (if negb (Time_IsZero (StartDateTime payload))
       then Some [Time_Format (StartDateTime payload) RFC3339] else None)
  ∧ ListTransfers_values payload !! "endDateTime" =
      (if negb (Time_IsZero (EndDateTime payload))
       then Some [Time_Format (EndDateTime payload) RFC3339] else None)
  ∧ ListTransfers_values payload !! "groupID" =
      (if bool_decide (GroupID payload ≠ "")
       then Some [GroupID payload] else None)
  ∧ ListTransfers_values payload !! "count" =
      (if bool_decide (0 < Count payload)
       then Some [Sprint_int (Count payload)] else None)
  ∧ ListTransfers_values payload !! "skip" =
      (if bool_decide (0 < Skip payload)
       then Some [Sprint_int (Skip payload)] else None)
  ∧ ListTransfers_values payload !! "refunded" =
      (if Refunded payload then Some ["true"] else None)
  ∧ ListTransfers_values payload !! "disputed" =
      (if Disputed payload then Some ["true"] else None).
Proof.
  split_and!; try (by lookup_values).
  lookup_values. by rewrite nonempty_length_pos.
Qed.

Lemma ListTransfers_query (payload : SearchQueryPayload) :
  url.Encode (ListTransfers_values payload) =
  String.concat "&" (mjoin [
    querySegment (bool_decide (AccountIDs payload ≠ [])) "accountIDs"
                 (strings_Join (AccountIDs payload) ",");
    querySegment (bool_decide (0 < Count payload)) "count"
                 (Sprint_int (Count payload));
    querySegment (Disputed payload) "disputed" "true";
    querySegment (negb (Time_IsZero (EndDateTime payload))) "endDateTime"
                 (Time_Format (EndDateTime payload) RFC3339);
    querySegment (bool_decide (GroupID payload ≠ "")) "groupID"
                 (GroupID payload);
    querySegment (Refunded payload) "refunded" "true";
    querySegment (bool_decide (0 < Skip payload)) "skip"
                 (Sprint_int (Skip payload));
    querySegment (negb (Time_IsZero (StartDateTime payload))) "startDateTime"
                 (Time_Format (StartDateTime payload) RFC3339);
    querySegment (bool_decide (Query_Status payload ≠ "")) "status"
                 (Query_Status payload) ]).
Proof.
  destruct (ListTransfers_values_lookup payload)
    as (H1 & H2 & H3 & H4 & H5 & H6 & H7 & H8 & H9).
  rewrite (Encode_sorted_keys _ ListTransfers_keys
             ListTransfers_keys_sorted ListTransfers_keys_NoDup).
  - unfold ListTransfers_keys. rewrite !fmap_cons, fmap_nil.
    rewrite H1, H2, H3, H4, H5, H6, H7, H8, H9.
    rewrite !encodePairs_cond by reflexivity. reflexivity.
  - intros k Hk. destruct (decide (k ∈ ListTransfers_keys)) as [|Hn]; [done|].
    rewrite (ListTransfers_values_other _ k Hn) in Hk. by destruct Hk.
Qed.

(** C6, as amended. The query values that [ListTransfers] assembles hold a
    parameter exactly under the guard that the code tests: accountIDs when
    the list is not empty, its IDs joined by commas into one value; status
    and groupID when the string is not empty; startDateTime and endDateTime
    when the time is not the zero time, formatted as RFC3339; count and
    skip when strictly positive, in decimal; refunded and disputed when
    true; and no other key. The values are stored verbatim. The query
    string of the requested URL is their encoding: the pairs key=value, in
    the order of the keys, joined by ampersands, each value escaped as a
    query component (an escaped value holds no ampersand and no equals
    sign). With Count and Skip at most 0, in particular both 0, neither the
    count nor the skip parameter is present: the query string consists of
    the other seven parameters. *)
Theorem ListTransfers_query_parameters (payload : SearchQueryPayload) :
  (ListTransfers_values payload !! "accountIDs" =
     (if bool_decide (AccountIDs payload ≠ [])
      then Some [strings_Join (AccountIDs payload) ","] else None)
   ∧ ListTransfers_values payload !! "status" =
       (if bool_decide (Query_Status payload ≠ "")
        then Some [Query_Status payload] else None)
   ∧ ListTransfers_values payload !! "startDateTime" =
       (if negb (Time_IsZero (StartDateTime payload))
        then Some [Time_Format (StartDateTime payload) RFC3339] else None)
   ∧ ListTransfers_values payload !! "endDateTime" =
       (if negb (Time_IsZero (EndDateTime payload))
        then Some [Time_Format (EndDateTime payload) RFC3339] else None)
   ∧ ListTransfers_values payload !! "groupID" =
       (if bool_decide (GroupID payload ≠ "")
        then Some [GroupID payload] else None)
   ∧ ListTransfers_values payload !! "count" =
       (if bool_decide (0 < Count payload)
        then Some [Sprint_int (Count payload)] else None)
   ∧ ListTransfers_values payload !! "skip" =
       (if bool_decide (0 < Skip payload)
        then Some [Sprint_int (Skip payload)] else None)
   ∧ ListTransfers_values payload !! "refunded" =
       (if Refunded payload then Some ["true"] else None)
   ∧ ListTransfers_values payload !! "disputed" =
       (if Disputed payload then Some ["true"] else None))
  ∧ (∀ k, k ∉ ListTransfers_keys → ListTransfers_values payload !! k = None)
  ∧ ListTransfers_url payload =
      Sprintf "%s/%s?%s"
        [baseURL; pathTransfers; url.Encode (ListTransfers_values payload)]
  ∧ url.Encode (ListTransfers_values payload) =
      String.concat "&" (mjoin [
        querySegment (bool_decide (AccountIDs payload ≠ [])) "accountIDs"
                     (strings_Join (AccountIDs payload) ",");
        querySegment (bool_decide (0 < Count payload)) "count"
                     (Sprint_int (Count payload));
        querySegment (Disputed payload) "disputed" "true";
        querySegment (negb (Time_IsZero (EndDateTime payload))) "endDateTime"
                     (Time_Format (EndDateTime payload) RFC3339);
        querySegment (bool_decide (GroupID payload ≠ "")) "groupID"
                     (GroupID payload);
        querySegment (Refunded payload) "refunded" "true";
        querySegment (bool_decide (0 < Skip payload)) "skip"
                     (Sprint_int (Skip payload));
        querySegment (negb (Time_IsZero (StartDateTime payload)))
                     "startDateTime"
                     (Time_Format (StartDateTime payload) RFC3339);
        querySegment (bool_decide (Query_Status payload ≠ "")) "status"
                     (Query_Status payload) ])
  ∧ (∀ s, Forall (λ c, c ≠ "&"%char ∧ c ≠ "="%char)
                 (String.list_ascii_of_string (url.QueryEscape s)))
  ∧ (Count payload ≤ 0 → Skip payload ≤ 0 →
       url.Has "count" (ListTransfers_values payload) = false
       ∧ url.Has "skip" (ListTransfers_values payload) = false
       ∧ url.Encode (ListTransfers_values payload) =
           String.concat "&" (mjoin [
             querySegment (bool_decide (AccountIDs payload ≠ []))
                          "accountIDs"
                          (strings_Join (AccountIDs payload) ",");
             querySegment (Disputed payload) "disputed" "true";
             querySegment (negb (Time_IsZero (EndDateTime payload)))
                          "endDateTime"
                          (Time_Format (EndDateTime payload) RFC3339);
             querySegment (bool_decide (GroupID payload ≠ "")) "groupID"
                          (GroupID payload);
             querySegment (Refunded payload) "refunded" "true";
             querySegment (negb (Time_IsZero (StartDateTime payload)))
                          "startDateTime"
                          (Time_Format (StartDateTime payload) RFC3339);
             querySegment (bool_decide (Query_Status payload ≠ "")) "status"
                          (Query_Status payload) ])).
Proof.
  pose proof (ListTransfers_values_lookup payload) as Hl.
  split; [exact Hl|].
  split; [apply ListTransfers_values_other|].
  split; [reflexivity|].
  split; [apply ListTransfers_query|].
  split; [apply QueryEscape_no_separator|].
  destruct Hl as (_ & _ & _ & _ & _ & Hc & Hs & _).
  intros Hcount Hskip. unfold url.Has.
  rewrite ListTransfers_query, Hc, Hs.
  rewrite (bool_decide_eq_false_2 (0 < Count payload)) by lia.
  rewrite (bool_decide_eq_false_2 (0 < Skip payload)) by lia.
  split_and!; [| |reflexivity]; apply bool_decide_eq_false_2; by intros [? ?].
Qed.
End QueryFacts.

(** * Further properties of the code *)

(** ** Options and call construction *)

(** [prependArgs], despite its name, returns the variadic arguments
    followed by the options, each list in its own order; so [newCall] runs
    the endpoint before the caller's options. *)
Theorem prependArgs_keeps_order (opts args : list callArg) :
  prependArgs opts args = args ++ opts
  ∧ length (prependArgs opts args) = (length args + length opts)%nat
  ∧ (∀ i a, args !! i = Some a → prependArgs opts args !! i = Some a)
  ∧ (∀ i, prependArgs opts args !! (length args + i)%nat = opts !! i).
Proof.
  rewrite prependArgs_app. split_and!.
  - done.
  - by rewrite length_app.
  - intros i a Hi. by apply lookup_app_l_Some.
  - intros i. by rewrite lookup_app_r, Nat.add_comm, Nat.add_sub by lia.
Qed.

Section MoreOptions.
Implicit Types (a b : callArg) (l args : list callArg) (c call : callBuilder).

Lemma infallibleArg_apply a c :
  infallibleArg a → ∃ c', apply a c = (c', None).
Proof.
  intros Ha. destruct Ha as [m f args|A M b payload Hm| |s];
    unfold apply; simpl; eauto.
  unfold JsonBody, callBuilderFn. rewrite Hm. eauto.
Qed.

Lemma infallible_applyAll l c :
  Forall infallibleArg l → ∃ c', applyAll l c = (Some c', None).
Proof.
  intros Hl. revert c. induction Hl as [|a l Ha _ IH]; intros c; simpl.
  - eauto.
  - destruct (infallibleArg_apply a c Ha) as [c1 ->]. apply IH.
Qed.

(** Construction fails only through a body that does not marshal:
    [newCall] succeeds on every endpoint and option list made of
    [Endpoint], [AcceptJson], [WaitFor] and [JsonBody] options whose values
    marshal. *)
Theorem newCall_succeeds_when_bodies_marshal endpoint args :
  infallibleArg endpoint →
  Forall infallibleArg args →
  ∃ call, newCall endpoint args = (Some call, None).
Proof.
  intros He Ha. rewrite newCall_unfold.
  apply infallible_applyAll. by constructor.
Qed.

Lemma JsonBody_failure_apply {A : Type} `{!JsonMarshal A} (v : A) payload e c :
  json_Marshal v = (payload, Some e) → apply (JsonBody v) c = (c, Some e).
Proof. intros Hm. unfold apply, JsonBody, callBuilderFn. by rewrite Hm. Qed.

(** A body that does not marshal aborts the construction: when the options
    before it cannot fail, [newCall] returns the marshalling error and no
    builder, whatever options follow. *)
Theorem newCall_fails_on_unmarshallable_body
    {A : Type} `{!JsonMarshal A} (v : A) payload e endpoint pre post :
  json_Marshal v = (payload, Some e) →
  infallibleArg endpoint →
  Forall infallibleArg pre →
  newCall endpoint (pre ++ JsonBody v :: post) = (None, Some e).
Proof.
  intros Hm He Hpre. rewrite newCall_unfold.
  destruct (infallible_applyAll (endpoint :: pre) emptyCall) as [c1 Hc1];
    [by constructor|].
  apply applyAll_success in Hc1.
  change (endpoint :: pre ++ JsonBody v :: post)
    with ((endpoint :: pre) ++ JsonBody v :: post).
  eapply applyAll_stops; [exact Hc1|].
  by eapply JsonBody_failure_apply.
Qed.

(** What an option of part_000 leaves alone and what it may write. *)
Lemma builtinArg_frame a c c' :
  builtinArg a → apply a c = (c', None) →
  params c' = params c ∧ token c' = token c
  ∧ (∀ k v, headers c' !! k = Some v →
       headers c !! k = Some v
       ∨ (k = "Accept" ∧ v = "application/json")
       ∨ (k = "Context-Type" ∧ v = "application/json")
       ∨ k = "X-Wait-For").
Proof.
  intros Ha Happ. destruct Ha; unfold apply in Happ; simpl in Happ.
  - injection Happ as <-. simpl. eauto.
  - unfold JsonBody, callBuilderFn in Happ.
    destruct (json_Marshal b) as [payload [e|]]; [done|].
    injection Happ as <-. simpl. split_and!; [done..|].
    intros k v. rewrite lookup_insert. case_decide; naive_solver.
  - injection Happ as <-. simpl. split_and!; [done..|].
    intros k v. rewrite lookup_insert. case_decide; naive_solver.
  - injection Happ as <-. simpl. split_and!; [done..|].
    intros k v. rewrite lookup_insert. case_decide; naive_solver.
Qed.

Lemma appliedInOrder_builtin_frame l c c' :
  Forall builtinArg l → appliedInOrder l c c' →
  params c' = params c ∧ token c' = token c
  ∧ (∀ k v, headers c' !! k = Some v →
       headers c !! k = Some v
       ∨ (k = "Accept" ∧ v = "application/json")
       ∨ (k = "Context-Type" ∧ v = "application/json")
       ∨ k = "X-Wait-For").
Proof.
  intros Hall Hrun.
  induction Hrun as [c|a rest c c1 c2 Ha _ IH]; [eauto|].
  apply Forall_cons in Hall as [Hb Hall].
  destruct (IH Hall) as (Hp & Ht & Hh).
  destruct (builtinArg_frame a c c1 Hb Ha) as (Hp1 & Ht1 & Hh1).
  split_and!; [congruence..|].
  intros k v Hk. destruct (Hh k v Hk) as [Hk1|?]; [|by eauto].
  apply Hh1 in Hk1. naive_solver.
Qed.

(** The options of part_000 never set a query parameter or the bearer
    token, and the only headers they write are Accept and Context-Type,
    both with the value application/json, and X-Wait-For. *)
Theorem newCall_builtin_options_frame endpoint args call :
  builtinArg endpoint →
  Forall builtinArg args →
  newCall endpoint args = (Some call, None) →
  params call = ∅
  ∧ token call = None
  ∧ dom (headers call) ⊆ {["Accept"; "Context-Type"; "X-Wait-For"]}
  ∧ (∀ v, headers call !! "Accept" = Some v → v = "application/json")
  ∧ (∀ v, headers call !! "Context-Type" = Some v → v = "application/json").
Proof.
  intros He Ha Hnew. rewrite newCall_unfold in Hnew.
  apply applyAll_success in Hnew.
  destruct (appliedInOrder_builtin_frame (endpoint :: args) emptyCall call)
    as (Hp & Ht & Hh); [by constructor | done |].
  split_and!; [done | done | | |].
  - intros k [v Hk]%elem_of_dom.
    rewrite !elem_of_union, !elem_of_singleton.
    destruct (Hh k v Hk) as [Hk0|[[-> _]|[[-> _]| ->]]]; auto.
    simpl in Hk0. by rewrite lookup_empty in Hk0.
  - intros v Hk.
    by destruct (Hh _ v Hk) as [Hk0|[[_ ->]|[[? _]|?]]].
  - intros v Hk.
    by destruct (Hh _ v Hk) as [Hk0|[[? _]|[[_ ->]|?]]].
Qed.


End MoreOptions.

(** ** How options compose *)

Section OptionAlgebra.
Implicit Types (a b : callArg) (l : list callArg) (c : callBuilder).

Lemma applyAll_app (l1 l2 : list callArg) c :
  applyAll (l1 ++ l2) c =
  match applyAll l1 c with
  | (Some c1, _) => applyAll l2 c1
  | (None, e) => (None, e)
  end.
Proof.
  revert c. induction l1 as [|a l1 IH]; intros c; simpl; [done|].
  destruct (apply a c) as [c1 [e|]]; [done | apply IH].
Qed.

Lemma commute_in_context a b (l1 l2 : list callArg) c :
  commute a b →
  applyAll (l1 ++ a :: b :: l2) c = applyAll (l1 ++ b :: a :: l2) c.
Proof.
  intros Hab. rewrite !applyAll_app.
  destruct (applyAll l1 c) as [[c1|] e]; [|done].
  change (a :: b :: l2) with ([a; b] ++ l2).
  change (b :: a :: l2) with ([b; a] ++ l2).
  by rewrite !applyAll_app, (Hab c1).
Qed.

Lemma overrides_in_context a b (l1 l2 : list callArg) c :
  overrides b a →
  applyAll (l1 ++ a :: b :: l2) c = applyAll (l1 ++ b :: l2) c.
Proof.
  intros Hab. rewrite !applyAll_app.
  destruct (applyAll l1 c) as [[c1|] e]; [|done].
  change (a :: b :: l2) with ([a; b] ++ l2).
  change (b :: l2) with ([b] ++ l2).
  by rewrite !applyAll_app, (Hab c1).
Qed.

Lemma commute_AcceptJson_WaitFor s : commute AcceptJson (WaitFor s).
Proof.
  intros c. simpl. unfold set_header. simpl.
  by rewrite insert_insert_ne.
Qed.

Lemma commute_Endpoint_AcceptJson m f o : commute (Endpoint m f o) AcceptJson.
Proof. intros c. reflexivity. Qed.

Lemma commute_Endpoint_WaitFor m f o s : commute (Endpoint m f o) (WaitFor s).
Proof. intros c. reflexivity. Qed.

Lemma commute_JsonBody_AcceptJson {A : Type} `{!JsonMarshal A} (v : A) :
  commute (JsonBody v) AcceptJson.
Proof.
  intros c. simpl. unfold apply, JsonBody, AcceptJson, callBuilderFn.
  destruct (json_Marshal v) as [payload [e|]]; [done|].
  unfold set_body, set_header. simpl. by rewrite insert_insert_ne.
Qed.

Lemma commute_JsonBody_WaitFor {A : Type} `{!JsonMarshal A} (v : A) s :
  commute (JsonBody v) (WaitFor s).
Proof.
  intros c. simpl. unfold apply, JsonBody, WaitFor, callBuilderFn.
  destruct (json_Marshal v) as [payload [e|]]; [done|].
  unfold set_body, set_header. simpl. by rewrite insert_insert_ne.
Qed.

Lemma commute_JsonBody_Endpoint {A : Type} `{!JsonMarshal A} (v : A) m f o :
  commute (JsonBody v) (Endpoint m f o).
Proof.
  intros c. simpl. unfold apply, JsonBody, Endpoint, callBuilderFn.
  by destruct (json_Marshal v) as [payload [e|]].
Qed.

Lemma overrides_WaitFor s1 s2 : overrides (WaitFor s2) (WaitFor s1).
Proof.
  intros c. simpl. unfold set_header. simpl. by rewrite insert_insert_eq.
Qed.

Lemma overrides_AcceptJson : overrides AcceptJson AcceptJson.
Proof.
  intros c. simpl. unfold set_header. simpl. by rewrite insert_insert_eq.
Qed.

Lemma overrides_Endpoint m1 f1 o1 m2 f2 o2 :
  overrides (Endpoint m2 f2 o2) (Endpoint m1 f1 o1).
Proof. intros c. reflexivity. Qed.

(** Options that write different fields can be given in either order, and
    of two options that write the same field the later one alone decides:
    [AcceptJson], [WaitFor], [JsonBody] and [Endpoint] commute with one
    another (two [JsonBody] options excepted), a second [WaitFor],
    [AcceptJson] or [Endpoint] makes the first one redundant, and both
    facts carry over to [newCall] at any place of the option list. *)
Theorem options_commute_or_override :
  (∀ s, commute AcceptJson (WaitFor s))
  ∧ (∀ m f o, commute (Endpoint m f o) AcceptJson)
  ∧ (∀ m f o s, commute (Endpoint m f o) (WaitFor s))
  ∧ (∀ (A : Type) (M : JsonMarshal A) (v : A), commute (JsonBody v) AcceptJson)
  ∧ (∀ (A : Type) (M : JsonMarshal A) (v : A) s,
       commute (JsonBody v) (WaitFor s))
  ∧ (∀ (A : Type) (M : JsonMarshal A) (v : A) m f o,
       commute (JsonBody v) (Endpoint m f o))
  ∧ (∀ s1 s2, overrides (WaitFor s2) (WaitFor s1))
  ∧ overrides AcceptJson AcceptJson
  ∧ (∀ m1 f1 o1 m2 f2 o2, overrides (Endpoint m2 f2 o2) (Endpoint m1 f1 o1))
  ∧ (∀ a b endpoint l1 l2,
       commute a b →
       newCall endpoint (l1 ++ a :: b :: l2)
       = newCall endpoint (l1 ++ b :: a :: l2))
  ∧ (∀ a b endpoint l1 l2,
       overrides b a →
       newCall endpoint (l1 ++ a :: b :: l2) = newCall endpoint (l1 ++ b :: l2)).
Proof.
  split_and!.
  - apply commute_AcceptJson_WaitFor.
  - apply commute_Endpoint_AcceptJson.
  - apply commute_Endpoint_WaitFor.
  - intros A M v. apply commute_JsonBody_AcceptJson.
  - intros A M v s. apply commute_JsonBody_WaitFor.
  - intros A M v m f o. apply commute_JsonBody_Endpoint.
  - apply overrides_WaitFor.
  - apply overrides_AcceptJson.
  - apply overrides_Endpoint.
  - intros a b endpoint l1 l2 Hab. rewrite !newCall_unfold.
    apply (commute_in_context a b (endpoint :: l1) l2 emptyCall Hab).
  - intros a b endpoint l1 l2 Hab. rewrite !newCall_unfold.
    apply (overrides_in_context a b (endpoint :: l1) l2 emptyCall Hab).
Qed.
End OptionAlgebra.

(** ** Statuses are compared as structs *)

(** The names of the ten defined statuses are pairwise distinct, so a
    defined status is determined by its name; but the combinators compare
    the whole struct: a status named completed whose retryable flag is set
    is not taken as completed, and [CompletedNilOrError] returns the
    response's error for it. *)
Theorem statuses_are_compared_with_their_flag :
  NoDup (Name <$> definedStatuses)
  ∧ (∀ s1 s2, s1 ∈ definedStatuses → s2 ∈ definedStatuses →
       Name s1 = Name s2 → s1 = s2)
  ∧ (∀ resp, Status resp = callStatus "completed" true →
       CompletedNilOrError resp = Error resp).
Proof.
  split_and!.
  - apply (bool_decide_unpack _). by vm_compute.
  - assert (H : Forall (λ s1, Forall (λ s2, Name s1 = Name s2 → s1 = s2)
                                     definedStatuses) definedStatuses).
    { apply (bool_decide_unpack _). by vm_compute. }
    intros s1 s2 H1 H2. rewrite Forall_forall in H.
    specialize (H s1 H1). rewrite Forall_forall in H. by apply H.
  - intros resp Hs. unfold CompletedNilOrError. by rewrite Hs.
Qed.

(** ** The decode helpers *)

(** [UnmarshalObjectResponse] returns either a non-nil pointer with a nil
    error or a nil pointer with the decode error, never both and never
    neither. [UnmarshalListResponse] returns a nil slice with every decode
    error, dropping what was decoded so far, and otherwise the slice as
    the decoder left it with a nil error: a nil slice without error exactly
    when the decoder stored nil. *)
Theorem decode_helpers_value_xor_error
    {A : Type} `{!GoZero A, !JsonUnmarshal A, !JsonUnmarshal (option (list A))}
    (resp : CallResponse) :
  (is_Some (UnmarshalObjectResponse (A := A) resp).1 ↔
   (UnmarshalObjectResponse (A := A) resp).2 = None)
  ∧ (∀ e, (UnmarshalListResponse (A := A) resp).2 = Some e →
       (UnmarshalListResponse (A := A) resp).1 = None
       ∧ (Unmarshal resp (Some [] : option (list A))).2 = Some e)
  ∧ ((UnmarshalListResponse (A := A) resp).2 = None →
       (UnmarshalListResponse (A := A) resp).1
       = (Unmarshal resp (Some [] : option (list A))).1)
  ∧ (UnmarshalListResponse (A := A) resp = (None, None) ↔
     Unmarshal resp (Some [] : option (list A)) = (None, None)).
Proof.
  unfold UnmarshalObjectResponse, UnmarshalListResponse. split.
  { destruct (Unmarshal resp (zero : A)) as [item [e|]]; simpl.
    - split; [by intros [? ?] | done].
    - split; [done | eauto]. }
  destruct (Unmarshal resp (Some [] : option (list A))) as [l [e'|]]; simpl.
  - split_and!; [by intros e [= ->] | done | by split; intros [=]].
  - split_and!; done.
Qed.

(** ** Results of the endpoints *)

Lemma CompletedObjectOrError_value_xor_error
    {A : Type} `{!GoZero A, !JsonUnmarshal A} (resp : CallResponse) :
  (is_Some (CompletedObjectOrError (A := A) resp).1 →
     (CompletedObjectOrError (A := A) resp).2 = None
     ∧ Status resp = StatusCompleted)
  ∧ (classified resp →
     (CompletedObjectOrError (A := A) resp).2 = None →
     is_Some (CompletedObjectOrError (A := A) resp).1).
Proof.
  unfold CompletedObjectOrError, UnmarshalObjectResponse, classified.
  destruct (decide (Status resp = StatusCompleted)) as [Hs|Hs].
  - destruct (Unmarshal resp (zero : A)) as [item [e|]]; simpl.
    + split; [by intros [? ?] | done].
    + split; [done | eauto].
  - simpl. split; [by intros [? ?]|]. intros Hcl He. by destruct (Hcl Hs).
Qed.

Section EndpointResults.
Context `{D : Deps}.
Context `{!JsonMarshal BankAccount, !JsonUnmarshal BankAccount,
          !JsonUnmarshal (option (list BankAccount)),
          !JsonMarshal (gmap string (list Z)),
          !JsonMarshal CreateTransferReq,
          !JsonUnmarshal SynchronousTransfer,
          !JsonUnmarshal AsynchronousTransfer,
          !JsonUnmarshal (option (list SynchronousTransfer)),
          !JsonUnmarshal (option (list Refund)),
          !JsonUnmarshal Refund, !JsonUnmarshal CanceledTransfer}.
Implicit Types (c : Client) (ctx : Ctx) (resp : CallResponse).

(** The endpoints that return an object never return it together with an
    error: a non-nil bank account from [CreateBankAccount] or
    [GetBankAccount] comes with a nil error, and [CreateTransfer] returns at
    most one of its two transfers, with a nil error. When every response of
    the client is classified, the converse holds too: a nil error comes
    with an object. [ListBankAccounts] returns a nil slice with every
    error. *)
Theorem object_endpoints_value_xor_error c ctx :
  (∀ accountID (bankAccount : BankAccount),
     (is_Some (CreateBankAccount c ctx accountID bankAccount).1 →
        (CreateBankAccount c ctx accountID bankAccount).2 = None)
     ∧ ((∀ resp, CallHttp c ctx
                   (Endpoint http.MethodPost pathBankAccounts [accountID])
                   [AcceptJson; JsonBody bankAccount] = inl resp →
                 classified resp) →
        (CreateBankAccount c ctx accountID bankAccount).2 = None →
        is_Some (CreateBankAccount c ctx accountID bankAccount).1))
  ∧ (∀ accountID bankAccountID,
       (is_Some (GetBankAccount c ctx accountID bankAccountID).1 →
          (GetBankAccount c ctx accountID bankAccountID).2 = None)
       ∧ ((∀ resp, CallHttp c ctx
                     (Endpoint http.MethodGet pathBankAccounts [accountID])
                     [AcceptJson] = inl resp →
                   classified resp) →
          (GetBankAccount c ctx accountID bankAccountID).2 = None →
          is_Some (GetBankAccount c ctx accountID bankAccountID).1))
  ∧ (∀ (transfer : CreateTransferReq) isSync,
       (is_Some (CreateTransfer c ctx transfer isSync).1.1 →
          (CreateTransfer c ctx transfer isSync).1.2 = None
          ∧ (CreateTransfer c ctx transfer isSync).2 = None)
       ∧ (is_Some (CreateTransfer c ctx transfer isSync).1.2 →
            (CreateTransfer c ctx transfer isSync).1.1 = None
            ∧ (CreateTransfer c ctx transfer isSync).2 = None)
       ∧ ((∀ resp, CallHttp c ctx (Endpoint http.MethodPost pathTransfers [])
                     (CreateTransfer_args transfer isSync) = inl resp →
                   classified resp) →
          (CreateTransfer c ctx transfer isSync).2 = None →
          is_Some (CreateTransfer c ctx transfer isSync).1.1
          ∨ is_Some (CreateTransfer c ctx transfer isSync).1.2))
  ∧ (∀ accountID e,
       (ListBankAccounts c ctx accountID).2 = Some e →
       (ListBankAccounts c ctx accountID).1 = None).
Proof.
  split_and!; cycle 3.
  { intros accountID e. unfold ListBankAccounts.
    destruct (CallHttp c ctx _ _) as [resp|e0]; simpl; [|done].
    unfold CompletedListOrError, UnmarshalListResponse.
    case_decide; [|done].
    by destruct (Unmarshal resp (Some [] : option (list BankAccount)))
      as [l [e1|]]. }
  - intros accountID bankAccount. unfold CreateBankAccount.
    destruct (CallHttp c ctx _ _) as [resp|e]; simpl;
      [|split; [by intros [? ?] | done]].
    destruct (CompletedObjectOrError_value_xor_error (A := BankAccount) resp)
      as [Hv He].
    destruct (decide (Status resp = StatusCompleted)) as [Hs|Hs].
    + split; [by intros Hsome; apply Hv | intros Hcl; apply He; eauto].
    + destruct (decide (Status resp = StatusStateConflict)); simpl.
      * split; [by intros [? ?] | done].
      * split; [by intros [? ?]|]. intros Hcl Herr.
        by destruct (Hcl resp eq_refl Hs).
  - intros accountID bankAccountID. unfold GetBankAccount.
    destruct (CallHttp c ctx _ _) as [resp|e]; simpl;
      [|split; [by intros [? ?] | done]].
    destruct (CompletedObjectOrError_value_xor_error (A := BankAccount) resp)
      as [Hv He].
    split; [by intros Hsome; apply Hv | intros Hcl; apply He; eauto].
  - intros transfer isSync. unfold CreateTransfer.
    destruct (CallHttp c ctx _ _) as [resp|e]; simpl;
      [|split_and!; [by intros [? ?] | by intros [? ?] | done]].
    unfold UnmarshalObjectResponse.
    destruct (decide (Status resp = StatusCompleted)) as [Hs|Hs].
    { destruct (Unmarshal resp (zero : SynchronousTransfer)) as [st [e|]];
        simpl; split_and!; try done; try (by intros [? ?]); eauto. }
    destruct (decide (Status resp = StatusStarted)) as [Hs'|Hs'].
    { destruct (Unmarshal resp (zero : AsynchronousTransfer)) as [st [e|]];
        simpl; split_and!; try done; try (by intros [? ?]); eauto. }
    destruct (decide (Status resp = StatusStateConflict)); simpl.
    { split_and!; try done; by intros [? ?]. }
    split_and!; try (by intros [? ?]).
    intros Hcl Herr. by destruct (Hcl resp eq_refl Hs).
Qed.

(** For the endpoints that return only an error, a classified response
    gives a nil error exactly when it is completed: [DeleteBankAccount],
    [MicroDepositInitiate] and [MicroDepositConfirm] report every other
    status, started included, as a failure. *)
Theorem error_only_endpoints_nil_iff_completed c ctx (accountID : string) :
  (∀ bankAccountID resp,
     CallHttp c ctx (Endpoint http.MethodDelete pathBankAccounts [accountID])
              [] = inl resp →
     classified resp →
     (DeleteBankAccount c ctx accountID bankAccountID = None ↔
      Status resp = StatusCompleted))
  ∧ (∀ bankAccountID resp,
       CallHttp c ctx
         (Endpoint http.MethodPost pathMicroDeposits [accountID; bankAccountID])
         [] = inl resp →
       classified resp →
       (MicroDepositInitiate c ctx accountID bankAccountID = None ↔
        Status resp = StatusCompleted))
  ∧ (∀ bankAccountID amounts resp,
       CallHttp c ctx
         (Endpoint http.MethodPut pathMicroDeposits [accountID; bankAccountID])
         [AcceptJson;
          JsonBody ({["amounts" := amounts]} : gmap string (list Z))]
         = inl resp →
       classified resp →
       (MicroDepositConfirm c ctx accountID bankAccountID amounts = None ↔
        Status resp = StatusCompleted)).
Proof.
  split_and!.
  - intros bankAccountID resp Hc Hcl. unfold DeleteBankAccount. rewrite Hc.
    unfold CompletedNilOrError. case_decide; [done|].
    split; [intros He; by destruct (Hcl H) | done].
  - intros bankAccountID resp Hc Hcl. unfold MicroDepositInitiate. rewrite Hc.
    unfold CompletedNilOrError. case_decide; [done|].
    split; [intros He; by destruct (Hcl H) | done].
  - intros bankAccountID amounts resp Hc Hcl.
    unfold MicroDepositConfirm. rewrite Hc.
    destruct (decide (Status resp = StatusCompleted)) as [Hs|Hs]; [done|].
    repeat case_decide; try done.
    split; [intros He; by destruct (Hcl Hs) | done].
Qed.
End EndpointResults.

(** ** The read endpoints of transfer.go *)

Section ReadEndpoints.
Context `{D : Deps}.
Context `{!JsonUnmarshal SynchronousTransfer,
          !JsonUnmarshal (option (list SynchronousTransfer)),
          !JsonUnmarshal (option (list Refund)),
          !JsonUnmarshal Refund, !JsonUnmarshal CanceledTransfer}.
Implicit Types (c : Client) (data : bytes) (statusCode : Z) (err : error).







End ReadEndpoints.

(** ** Refunds and reversals: when the error is nil *)

Section RefundResults.
Context `{D : Deps}.
Context `{!JsonUnmarshal Refund, !JsonUnmarshal CanceledTransfer}.
Implicit Types (c : Client) (data : bytes) (statusCode : Z) (err : error).

(** [RefundTransfer] and [ReverseTransfer] return a nil error in two
    cases only, both without transport error: the status code is 200 or
    202 and the body decodes, the result being the decoded value; or the
    status code is 400, the result being the zero value. *)
Theorem refund_and_reversal_nil_error_iff
    c (uuidV4 transferID : string) (isSync : bool) (amount : Z) :
  (∀ data statusCode err,
     GetHTTPResponse c http.MethodPost (RefundTransfer_url transferID)
       (Some (PayloadRefund {| RefundPayload_Amount := amount |}))
       (RefundTransfer_header uuidV4 isSync) = (data, statusCode, err) →
     ((RefundTransfer c uuidV4 transferID isSync amount).2 = None ↔
      err = None
      ∧ (((statusCode = 200 ∨ statusCode = 202)
          ∧ (json_Unmarshal data (zero : Refund)).2 = None)
         ∨ statusCode = 400))
     ∧ (err = None → statusCode = 200 ∨ statusCode = 202 →
        RefundTransfer c uuidV4 transferID isSync amount
        = json_Unmarshal data (zero : Refund)))
  ∧ (∀ data statusCode err,
       GetHTTPResponse c http.MethodPost (ReverseTransfer_url transferID)
         (Some (PayloadRefund {| RefundPayload_Amount := amount |}))
         (ReverseTransfer_header uuidV4) = (data, statusCode, err) →
       ((ReverseTransfer c uuidV4 transferID amount).2 = None ↔
        err = None
        ∧ (((statusCode = 200 ∨ statusCode = 202)
            ∧ (json_Unmarshal data (zero : CanceledTransfer)).2 = None)
           ∨ statusCode = 400))
       ∧ (err = None → statusCode = 200 ∨ statusCode = 202 →
          ReverseTransfer c uuidV4 transferID amount
          = json_Unmarshal data (zero : CanceledTransfer))).
Proof.
  split.
  - intros data statusCode err Hraw. unfold RefundTransfer. simpl.
    rewrite Hraw.
    unfold http.StatusOK, http.StatusAccepted, http.StatusBadRequest,
      http.StatusConflict, http.StatusUnprocessableEntity,
      http.StatusTooManyRequests, json_Unmarshal_nil_error.
    destruct err as [e|].
    { split; [split; [done | by intros [? _]] | done]. }
    destruct (decide (statusCode = 200 ∨ statusCode = 202)) as [Hok|Hno].
    { destruct (json_Unmarshal data (zero : Refund)) as [v [e|]]; simpl.
      - split; [split; [done|] | done].
        intros [_ [[_ ?]| ->]]; [done | lia].
      - split; [split; [intros _; split; [done | by left] | done] | done]. }
    split; [|by intros _ ?].
    destruct (decide (statusCode = 400)) as [->|H400]; simpl.
    { split; [intros _; split; [done | by right] | done]. }
    repeat case_decide; simpl;
      (split; [done | intros [_ [[? _]|?]]; done]).
  - intros data statusCode err Hraw. unfold ReverseTransfer. simpl.
    rewrite Hraw.
    unfold http.StatusOK, http.StatusAccepted, http.StatusBadRequest,
      http.StatusConflict, http.StatusUnprocessableEntity,
      http.StatusTooManyRequests, json_Unmarshal_nil_error.
    destruct err as [e|].
    { split; [split; [done | by intros [? _]] | done]. }
    destruct (decide (statusCode = 200 ∨ statusCode = 202)) as [Hok|Hno].
    { destruct (json_Unmarshal data (zero : CanceledTransfer)) as [v [e|]];
        simpl.
      - split; [split; [done|] | done].
        intros [_ [[_ ?]| ->]]; [done | lia].
      - split; [split; [intros _; split; [done | by left] | done] | done]. }
    split; [|by intros _ ?].
    destruct (decide (statusCode = 400)) as [->|H400]; simpl.
    { split; [intros _; split; [done | by right] | done]. }
    repeat case_decide; simpl;
      (split; [done | intros [_ [[? _]|?]]; done]).
Qed.
End RefundResults.

(** ** The transfer status table *)

(** The table names exactly the seven transfer statuses, with pairwise
    distinct non-empty names; indexing it with any other value reads the
    empty string. *)
Theorem TransferStatusStrings_names_seven_statuses :
  (∀ s : TransferStatus, is_Some (TransferStatusStrings !! s) ↔ 0 ≤ s ≤ 6)
  ∧ (∀ (s1 s2 : TransferStatus) name,
       TransferStatusStrings !! s1 = Some name →
       TransferStatusStrings !! s2 = Some name → s1 = s2)
  ∧ (∀ s : TransferStatus, TransferStatusStrings_index s = "" ↔ ¬ 0 ≤ s ≤ 6)
  ∧ (TransferStatusStrings_index <$>
       [TransferStatusCreated; TransferStatusPending; TransferStatusCompleted;
        TransferStatusFailed; TransferStatusReversed; TransferStatusQueued;
        TransferStatusCanceled])
    = ["created"; "pending"; "completed"; "failed"; "reversed"; "queued";
       "canceled"].
Proof.
  assert (Hout : ∀ s : Z, ¬ 0 ≤ s ≤ 6 → TransferStatusStrings !! s = None).
  { intros s Hs. unfold TransferStatusStrings. simpl.
    unfold TransferStatusCreated, TransferStatusPending,
      TransferStatusCompleted, TransferStatusFailed, TransferStatusReversed,
      TransferStatusQueued, TransferStatusCanceled.
    rewrite !lookup_insert_ne by lia. apply lookup_empty. }
  assert (Hin : ∀ s : Z, 0 ≤ s ≤ 6 →
            s = 0 ∨ s = 1 ∨ s = 2 ∨ s = 3 ∨ s = 4 ∨ s = 5 ∨ s = 6) by lia.
  unfold TransferStatus. split_and!.
  - intros s. split.
    + intros Hs. destruct (decide (0 ≤ s ≤ 6)) as [|Hn]; [done|].
      rewrite (Hout s Hn) in Hs. by destruct Hs.
    + intros Hs.
      destruct (Hin s Hs) as [->|[->|[->|[->|[->|[->| ->]]]]]];
        vm_compute; eauto.
  - intros s1 s2 name H1 H2.
    destruct (decide (0 ≤ s1 ≤ 6)) as [Hs1|Hn]; [|by rewrite Hout in H1].
    destruct (decide (0 ≤ s2 ≤ 6)) as [Hs2|Hn]; [|by rewrite Hout in H2].
    destruct (Hin s1 Hs1) as [->|[->|[->|[->|[->|[->| ->]]]]]];
      vm_compute in H1; injection H1 as <-;
      destruct (Hin s2 Hs2) as [->|[->|[->|[->|[->|[->| ->]]]]]];
      vm_compute in H2; done.
  - intros s. unfold TransferStatusStrings_index, TransferStatus. split.
    + intros Hs [H0 H6].
      destruct (Hin s (conj H0 H6)) as [->|[->|[->|[->|[->|[->| ->]]]]]];
        vm_compute in Hs; done.
    + intros Hs. by rewrite (Hout s Hs).
  - by vm_compute.
Qed.

(** ** URLs and request headers *)

Lemma string_app_nil_r (s : string) : s +:+ "" = s.
Proof.
  induction s as [|c s IH]; [done|].
  change (String c (s +:+ "") = String c s). by f_equal.
Qed.

Lemma string_app_assoc (s1 s2 s3 : string) :
  (s1 +:+ s2) +:+ s3 = s1 +:+ s2 +:+ s3.
Proof.
  induction s1 as [|c s1 IH]; [done|].
  change (String c ((s1 +:+ s2) +:+ s3) = String c (s1 +:+ s2 +:+ s3)).
  by f_equal.
Qed.

Lemma strings_Join_comma_merge (x y : string) (rest : list string) :
  strings_Join (x :: y :: rest) "," = strings_Join ((x +:+ "," +:+ y) :: rest) ",".
Proof.
  unfold strings_Join. destruct rest as [|z rest]; [done|].
  change (x +:+ "," +:+ y +:+ "," +:+ String.concat "," (z :: rest)
          = (x +:+ "," +:+ y) +:+ "," +:+ String.concat "," (z :: rest)).
  by rewrite string_app_assoc.
Qed.

Section Requests.
Context `{D : Deps}.
Context `{!JsonMarshal CreateTransferReq}.

Lemma GetTransfer_query (accountID : string) :
  url.Encode (GetTransfer_values accountID) =
  if bool_decide (accountID ≠ "")
  then "accountID=" +:+ url.QueryEscape accountID else "".
Proof.
  unfold GetTransfer_values. case_bool_decide; [|by vm_compute].
  rewrite (Encode_sorted_keys _ ["accountID"]).
  - unfold url.Add. simpl. rewrite lookup_insert_eq. reflexivity.
  - apply (bool_decide_unpack _). by vm_compute.
  - apply (bool_decide_unpack _). by vm_compute.
  - intros k Hk. unfold url.Add in Hk.
    destruct (decide (k = "accountID")) as [->|Hne]; [by left|].
    rewrite lookup_insert_ne, lookup_empty in Hk by done. by destruct Hk.
Qed.

(** The URLs of the transfer endpoints are built by plain concatenation:
    the transfer and refund identifiers are inserted as they are, without
    escaping. [RefundTransfer] posts to the URL that [ListRefunds] reads,
    the URL of [GetRefund] is that URL followed by a slash and the refund
    identifier, and [GetTransfer] always appends a question mark, followed
    by the escaped accountID parameter exactly when the account ID is not
    empty. *)
Theorem transfer_urls_are_concatenations (transferID refundID accountID : string) :
  ListRefunds_url transferID
    = baseURL +:+ "/" +:+ pathTransfers +:+ "/" +:+ transferID +:+ "/refunds"
  ∧ RefundTransfer_url transferID = ListRefunds_url transferID
  ∧ GetRefund_url transferID refundID
    = ListRefunds_url transferID +:+ "/" +:+ refundID
  ∧ ReverseTransfer_url transferID
    = baseURL +:+ "/" +:+ pathTransfers +:+ "/" +:+ transferID +:+ "/reversals"
  ∧ GetTransfer_url transferID accountID
    = baseURL +:+ "/" +:+ pathTransfers +:+ "/" +:+ transferID +:+ "?"
      +:+ (if bool_decide (accountID ≠ "")
           then "accountID=" +:+ url.QueryEscape accountID else "")
  ∧ GetTransfer_url transferID "" 
    = baseURL +:+ "/" +:+ pathTransfers +:+ "/" +:+ transferID +:+ "?".
Proof.
  split_and!.
  - reflexivity.
  - reflexivity.
  - change (baseURL +:+ "/" +:+ pathTransfers +:+ "/" +:+ transferID
            +:+ "/refunds/" +:+ refundID +:+ ""
            = (baseURL +:+ "/" +:+ pathTransfers +:+ "/" +:+ transferID
               +:+ "/refunds") +:+ "/" +:+ refundID).
    rewrite string_app_nil_r, !string_app_assoc. reflexivity.
  - reflexivity.
  - unfold GetTransfer_url. rewrite GetTransfer_query.
    generalize (if bool_decide (accountID ≠ "")
                then "accountID=" +:+ url.QueryEscape accountID else "").
    intros q.
    change (baseURL +:+ "/" +:+ pathTransfers +:+ "/" +:+ transferID
            +:+ "?" +:+ q +:+ ""
            = baseURL +:+ "/" +:+ pathTransfers +:+ "/" +:+ transferID
              +:+ "?" +:+ q).
    by rewrite string_app_nil_r.
  - unfold GetTransfer_url. rewrite GetTransfer_query. reflexivity.
Qed.

(** The wait header follows [isSync]: the options of [CreateTransfer] and
    the headers of [RefundTransfer] carry X-Wait-For with the value
    rail-response exactly when [isSync] is set, and [ReverseTransfer] never
    sends it. A refund or reversal always carries the drawn idempotency
    key, and no header beside these two. *)
Theorem wait_header_follows_isSync (isSync : bool) :
  (∀ (transfer : CreateTransferReq) call,
     newCall (Endpoint http.MethodPost pathTransfers [])
             (CreateTransfer_args transfer isSync) = (Some call, None) →
     headers call !! "X-Wait-For"
       = (if isSync then Some "rail-response" else None)
     ∧ headers call !! "Accept" = Some "application/json"
     ∧ method call = "POST"
     ∧ body call = Some (json_Marshal transfer).1)
  ∧ (∀ uuidV4,
       RefundTransfer_header uuidV4 isSync !! "X-Wait-For"
         = (if isSync then Some "rail-response" else None)
       ∧ RefundTransfer_header uuidV4 isSync !! "X-Idempotency-Key"
         = Some uuidV4
       ∧ dom (RefundTransfer_header uuidV4 isSync)
         ⊆ {["X-Idempotency-Key"; "X-Wait-For"]})
  ∧ (∀ uuidV4,
       ReverseTransfer_header uuidV4 !! "X-Wait-For" = None
       ∧ ReverseTransfer_header uuidV4 !! "X-Idempotency-Key" = Some uuidV4
       ∧ dom (ReverseTransfer_header uuidV4) = {["X-Idempotency-Key"]}).
Proof.
  split_and!.
  - intros transfer call. rewrite newCall_unfold.
    unfold CreateTransfer_args. simpl.
    unfold apply, JsonBody, callBuilderFn.
    destruct (json_Marshal transfer) as [payload [e|]]; [by destruct isSync|].
    destruct isSync; simpl; intros [= <-]; simpl; split_and!; reflexivity.
  - intros uuidV4. unfold RefundTransfer_header. cbv zeta.
    destruct isSync; split_and!; try reflexivity.
    rewrite dom_singleton_L. apply union_subseteq_l.
  - intros uuidV4. unfold ReverseTransfer_header.
    split_and!; [reflexivity | apply lookup_singleton_eq | apply dom_singleton_L].
Qed.

(** With no filter set (no account ID, empty status and group, zero
    times, count and skip at most 0, both flags false) [ListTransfers]
    requests the collection URL followed by a bare question mark. *)
Theorem ListTransfers_without_filters (payload : SearchQueryPayload) :
  AccountIDs payload = [] →
  Query_Status payload = "" →
  Time_IsZero (StartDateTime payload) = true →
  Time_IsZero (EndDateTime payload) = true →
  GroupID payload = "" →
  Count payload ≤ 0 →
  Skip payload ≤ 0 →
  Refunded payload = false →
  Disputed payload = false →
  ListTransfers_values payload = ∅
  ∧ ListTransfers_url payload = baseURL +:+ "/" +:+ pathTransfers +:+ "?".
Proof.
  intros Ha Hs Hst Hen Hg Hc Hk Hr Hd.
  assert (Hv : ListTransfers_values payload = ∅).
  { unfold ListTransfers_values. rewrite Ha, Hs, Hst, Hen, Hg, Hr, Hd. simpl.
    rewrite (bool_decide_eq_false_2 (0 < Count payload)) by lia.
    by rewrite (bool_decide_eq_false_2 (0 < Skip payload)) by lia. }
  split; [done|]. unfold ListTransfers_url. rewrite Hv. reflexivity.
Qed.

(** Joining the account IDs does not protect a comma inside an ID: a
    payload whose first two account IDs are [x] and [y] produces the same
    request URL as the payload that has the single ID [x,y] in their
    place. *)
Theorem ListTransfers_account_ids_merge_at_commas
    (payload : SearchQueryPayload) (x y : string) (rest : list string) :
  ListTransfers_values (withAccountIDs (x :: y :: rest) payload)
  = ListTransfers_values (withAccountIDs ((x +:+ "," +:+ y) :: rest) payload)
  ∧ ListTransfers_url (withAccountIDs (x :: y :: rest) payload)
    = ListTransfers_url (withAccountIDs ((x +:+ "," +:+ y) :: rest) payload).
Proof.
  assert (Hv : ListTransfers_values (withAccountIDs (x :: y :: rest) payload)
    = ListTransfers_values
        (withAccountIDs ((x +:+ "," +:+ y) :: rest) payload)).
  { rewrite !ListTransfers_values_condAdd. unfold withAccountIDs.
    cbn [AccountIDs Query_Status StartDateTime EndDateTime GroupID Count Skip
         Refunded Disputed].
    rewrite strings_Join_comma_merge. reflexivity. }
  split; [done|]. unfold ListTransfers_url. by rewrite Hv.
Qed.
End Requests.
(** * Concrete runs

    The theorems above applied to the concrete instantiation, and the
    inputs on which the behaviour of the code departs from a first reading
    of its description. *)

Import Demo.

(** A not_found response that carries its classified error is a classified
    response, and [CompletedNilOrError] returns nil on it exactly when its
    status is completed; the three combinators return its error. *)
Lemma completed_combinators_outcome_not_found :
  classified Demo.notFound
  ∧ (CompletedNilOrError Demo.notFound = None ↔
     Status Demo.notFound = StatusCompleted)
  ∧ ∃ e, Error Demo.notFound = Some e
         ∧ CompletedNilOrError Demo.notFound = Some e
         ∧ CompletedObjectOrError (A := BankAccount) Demo.notFound
             = (None, Some e)
         ∧ CompletedListOrError (A := BankAccount) Demo.notFound
             = (None, Some e).
Proof.
  assert (Hcl : classified Demo.notFound) by (intros _; discriminate).
  destruct (completed_combinators_outcome (A := BankAccount) Demo.notFound Hcl)
    as (Hnil & _ & Herr & _).
  split; [exact Hcl|]. split; [exact Hnil|].
  apply Herr. discriminate.
Defined.

(** The claim C3 as first stated fails on a completed response whose body
    does not decode: the status is completed, yet the object and list
    combinators return a nil pointer and a nil slice with the decode error
    and no decoded object. *)
Lemma completed_undecodable_body_returns_no_object :
  classified Demo.emptyCompleted
  ∧ Status Demo.emptyCompleted = StatusCompleted
  ∧ CompletedObjectOrError (A := BankAccount) Demo.emptyCompleted
      = (None, Some Demo.eof)
  ∧ CompletedListOrError (A := BankAccount) Demo.emptyCompleted
      = (None, Some Demo.eof).
Proof. split; [by intros [] | by vm_compute]. Qed.

(** A synchronous create-transfer call answered with a started response
    whose body decodes returns no synchronous transfer and the decoded
    asynchronous transfer. *)
Lemma CreateTransfer_started_run :
  CallHttp (Demo.client (inl Demo.startedTransfer) Demo.noRaw) ()
    (Endpoint http.MethodPost pathTransfers [])
    [AcceptJson; JsonBody Demo.someTransfer; WaitFor "rail-response"]
    = inl Demo.startedTransfer
  ∧ CreateTransfer (Demo.client (inl Demo.startedTransfer) Demo.noRaw) ()
      Demo.someTransfer true
    = (None, Some {| TransferID := "tr-1"; CreatedOn := 0 |}, None).
Proof.
  split; [reflexivity|].
  destruct (CreateTransfer_sync_completed_or_started
              (Demo.client (inl Demo.startedTransfer) Demo.noRaw) ()
              Demo.someTransfer Demo.startedTransfer eq_refl) as [_ Hstarted].
  destruct (Hstarted eq_refl) as [Hok _].
  exact (proj1 (Hok _ eq_refl)).
Defined.

(** The claim C4 as first stated fails on a completed response whose body
    does not decode: no synchronous transfer is returned. *)
Lemma CreateTransfer_completed_undecodable_body :
  Status Demo.emptyCompleted = StatusCompleted
  ∧ CreateTransfer (Demo.client (inl Demo.emptyCompleted) Demo.noRaw) ()
      Demo.someTransfer true
    = (None, None, Some Demo.eof).
Proof. by vm_compute. Qed.

(** A refund answered with HTTP 409 returns [ErrXIdempotencyKey]. *)
Lemma RefundTransfer_conflict_run :
  GetHTTPResponse (Demo.client Demo.noAnswer ([], http.StatusConflict, None))
    http.MethodPost (RefundTransfer_url "tr-1")
    (Some (PayloadRefund {| RefundPayload_Amount := 100 |}))
    (RefundTransfer_header "2f1c" true)
    = ([], http.StatusConflict, None)
  ∧ RefundTransfer (Demo.client Demo.noAnswer ([], http.StatusConflict, None))
      "2f1c" "tr-1" true 100
    = (zero, Some ErrXIdempotencyKey).
Proof.
  split; [reflexivity|].
  destruct (idempotency_conflict_returns_ErrXIdempotencyKey
              (Demo.client Demo.noAnswer ([], http.StatusConflict, None)))
    as (_ & Hrefund & _).
  exact (Hrefund "2f1c" "tr-1" true 100 [] eq_refl).
Defined.

(** Creating a bank account answered with a state_conflict response
    returns [ErrDuplicateBankAccount]. *)
Lemma CreateBankAccount_conflict_run :
  Status Demo.conflict = StatusStateConflict
  ∧ CreateBankAccount (Demo.client (inl Demo.conflict) Demo.noRaw) ()
      "acct-1" Demo.someAccount
    = (None, Some ErrDuplicateBankAccount).
Proof.
  split; [reflexivity|].
  destruct (bank_account_statuses_map_to_named_errors
              (Demo.client (inl Demo.conflict) Demo.noRaw) ())
    as (Hcreate & _).
  exact (Hcreate "acct-1" Demo.someAccount Demo.conflict eq_refl eq_refl).
Defined.

(** An option that fails stops the construction: the options before it
    were applied in order, the one after it is not reached. *)
Lemma newCall_stops_at_failing_option :
  newCall (Endpoint "POST" "/transfers" [])
          [WaitFor "rail-response"; JsonBody Demo.chan; AcceptJson]
  = (None, Some (ErrExternal "json: unsupported type: chan int")).
Proof.
  destruct (newCall_applies_options_in_order
              (Endpoint "POST" "/transfers" [])
              [WaitFor "rail-response"; JsonBody Demo.chan; AcceptJson])
    as (_ & Hstop & _).
  refine (proj1 (Hstop [Endpoint "POST" "/transfers" []; WaitFor "rail-response"]
                       (JsonBody Demo.chan) [AcceptJson] _ _ _ eq_refl _ eq_refl)).
  econstructor; [reflexivity|]. econstructor; [reflexivity|]. constructor.
Defined.

(** A later option overwrites what an earlier one wrote: of two [WaitFor]
    options the second one decides the header. *)
Example newCall_later_option_overrides :
  ∃ call,
    newCall (Endpoint "POST" "/transfers" [])
            [WaitFor "payment-authorized"; AcceptJson; WaitFor "rail-response"]
      = (Some call, None)
    ∧ headers call !! "X-Wait-For" = Some "rail-response"
    ∧ headers call !! "Accept" = Some "application/json"
    ∧ method call = "POST" ∧ path call = "/transfers".
Proof. eexists. split; [reflexivity|]. by vm_compute. Qed.

(** [JsonBody] on a bank account that marshals: the header written is
    Context-Type, and Content-Type stays unset. *)
Lemma JsonBody_bank_account_run :
  json_Marshal Demo.someAccount = (bytes_of_string "ba-1", None)
  ∧ ∃ call',
      apply (JsonBody Demo.someAccount) emptyCall = (call', None)
      ∧ headers call' !! "Context-Type" = Some "application/json"
      ∧ headers call' !! "Content-Type" = None
      ∧ body call' = Some (bytes_of_string "ba-1").
Proof.
  split; [reflexivity|].
  destruct (JsonBody_sets_Context_Type_header Demo.someAccount
              (bytes_of_string "ba-1") emptyCall eq_refl)
    as [(call' & Happ & _ & Hctx & Hcnt & Hbody & _) _].
  exists call'. split_and!; done.
Defined.

(** The claim C6 as first stated fails on a negative count, which is not
    the zero value and still yields no count parameter, and on a value
    that needs escaping, which does not appear verbatim in the query
    string: the comma that joins two account IDs is written as %2C. *)
Lemma negative_count_omitted_and_comma_escaped :
  Count Demo.negativeCount = -1
  ∧ ListTransfers_values Demo.negativeCount !! "count" = None
  ∧ ListTransfers_url Demo.negativeCount = "https://api.moov.io/transfers?"
  ∧ ListTransfers_values Demo.twoAccounts !! "accountIDs" = Some ["a,b"]
  ∧ ListTransfers_url Demo.twoAccounts
      = "https://api.moov.io/transfers?accountIDs=a%2Cb".
Proof. by vm_compute. Qed.

(** C2 on a concrete input: a refund answered with HTTP 400 and an error
    body comes back as a zero refund with a nil error. *)
Example RefundTransfer_bad_request_run :
  RefundTransfer
    (Demo.client Demo.noAnswer
       (bytes_of_string "{error: amount exceeds transfer}",
        http.StatusBadRequest, None))
    "2f1c" "tr-1" false 100
  = (zero, None).
Proof. reflexivity. Qed.

(** A reversal answered with HTTP 503 returns the default error of the
    code. *)
Lemma ReverseTransfer_unavailable_run :
  ReverseTransfer (Demo.client Demo.noAnswer ([], 503, None)) "2f1c" "tr-1" 100
  = (zero, Some (ErrDefault 503)).
Proof.
  destruct (RefundTransfer_ReverseTransfer_failure_statuses
              (Demo.client Demo.noAnswer ([], 503, None)) "2f1c" "tr-1" false 100)
    as (_ & _ & _ & Hrev).
  exact (Hrev [] 503 eq_refl ltac:(done) ltac:(done) ltac:(done)).
Defined.

(** Deleting a bank account with a client that cannot reach the service
    returns the transport error. *)
Lemma DeleteBankAccount_no_route_run :
  DeleteBankAccount (Demo.client Demo.noAnswer Demo.noRaw) () "acct-1" "ba-1"
  = Some (ErrExternal "no route").
Proof.
  destruct (CallHttp_errors_pass_through
              (Demo.client Demo.noAnswer Demo.noRaw) () (ErrExternal "no route"))
    as (_ & _ & Hdel & _).
  exact (Hdel "acct-1" "ba-1" eq_refl).
Defined.

(** ** Runs of the further properties *)

(** A call with a body that marshals is built. *)
Lemma newCall_with_marshalled_body_run :
  infallibleArg (Endpoint "POST" "/accounts/acct-1/bank-accounts" [])
  ∧ Forall infallibleArg [AcceptJson; JsonBody Demo.someAccount]
  ∧ ∃ call,
      newCall (Endpoint "POST" "/accounts/acct-1/bank-accounts" [])
              [AcceptJson; JsonBody Demo.someAccount] = (Some call, None).
Proof.
  assert (He : infallibleArg (Endpoint "POST" "/accounts/acct-1/bank-accounts" []))
    by constructor.
  assert (Ha : Forall infallibleArg [AcceptJson; JsonBody Demo.someAccount]).
  { repeat constructor.
    exact (infallible_JsonBody _ _ Demo.someAccount _ eq_refl). }
  split; [exact He|]. split; [exact Ha|].
  exact (newCall_succeeds_when_bodies_marshal _ _ He Ha).
Defined.

(** A channel as body aborts the construction behind [AcceptJson]. *)
Lemma newCall_with_channel_body_run :
  json_Marshal Demo.chan
    = ([], Some (ErrExternal "json: unsupported type: chan int"))
  ∧ newCall (Endpoint "PUT" "/x" [])
            ([AcceptJson] ++ JsonBody Demo.chan :: [WaitFor "rail-response"])
    = (None, Some (ErrExternal "json: unsupported type: chan int")).
Proof.
  split; [reflexivity|].
  apply (newCall_fails_on_unmarshallable_body Demo.chan [] _
           (Endpoint "PUT" "/x" []) [AcceptJson] [WaitFor "rail-response"]
           eq_refl); repeat constructor.
Defined.

(** A call built from the three header options has no query parameter and
    no token. *)
Lemma newCall_frame_run :
  ∃ call,
    newCall (Endpoint "GET" "/transfers" [])
            [AcceptJson; WaitFor "rail-response"] = (Some call, None)
    ∧ params call = ∅ ∧ token call = None
    ∧ dom (headers call) ⊆ {["Accept"; "Context-Type"; "X-Wait-For"]}.
Proof.
  eexists. split; [reflexivity|].
  destruct (newCall_builtin_options_frame
              (Endpoint "GET" "/transfers" [])
              [AcceptJson; WaitFor "rail-response"] _
              (builtin_Endpoint _ _ _)
              ltac:(repeat constructor) eq_refl)
    as (Hp & Ht & Hd & _).
  split_and!; [exact Hp | exact Ht | exact Hd].
Defined.


(** A payload whose only set field is a negative count sets no filter. *)
Lemma ListTransfers_without_filters_run :
  Count Demo.negativeCount ≤ 0
  ∧ ListTransfers_values Demo.negativeCount = ∅
  ∧ ListTransfers_url Demo.negativeCount = "https://api.moov.io/transfers?".
Proof.
  split; [by vm_compute|].
  apply (ListTransfers_without_filters Demo.negativeCount);
    try reflexivity; by vm_compute.
Defined.

(** A started answer to a create-transfer call: the asynchronous transfer
    comes alone. *)
Lemma CreateTransfer_started_shape_run :
  is_Some (CreateTransfer (Demo.client (inl Demo.startedTransfer) Demo.noRaw)
             () Demo.someTransfer false).1.2
  ∧ (CreateTransfer (Demo.client (inl Demo.startedTransfer) Demo.noRaw)
       () Demo.someTransfer false).1.1 = None
  ∧ (CreateTransfer (Demo.client (inl Demo.startedTransfer) Demo.noRaw)
       () Demo.someTransfer false).2 = None.
Proof.
  assert (Hs : is_Some (CreateTransfer
                 (Demo.client (inl Demo.startedTransfer) Demo.noRaw)
                 () Demo.someTransfer false).1.2) by (eexists; reflexivity).
  split; [exact Hs|].
  destruct (object_endpoints_value_xor_error
              (Demo.client (inl Demo.startedTransfer) Demo.noRaw) ())
    as (_ & _ & Hct & _).
  destruct (Hct Demo.someTransfer false) as (_ & Hasync & _).
  exact (Hasync Hs).
Defined.

(** Deleting a bank account answered with not_found is a failure. *)
Lemma DeleteBankAccount_not_found_run :
  classified Demo.notFound
  ∧ (DeleteBankAccount (Demo.client (inl Demo.notFound) Demo.noRaw) ()
       "acct-1" "ba-1" = None
     ↔ Status Demo.notFound = StatusCompleted).
Proof.
  assert (Hcl : classified Demo.notFound) by (intros _; discriminate).
  split; [exact Hcl|].
  destruct (error_only_endpoints_nil_iff_completed
              (Demo.client (inl Demo.notFound) Demo.noRaw) () "acct-1")
    as (Hdel & _).
  exact (Hdel "ba-1" Demo.notFound eq_refl Hcl).
Defined.


(** A refund accepted with 202 and a body that decodes is returned. *)
Lemma RefundTransfer_accepted_run :
  RefundTransfer
    (Demo.client Demo.noAnswer (bytes_of_string "rf-1", 202, None))
    "2f1c" "tr-1" true 100
  = (mkRefund "rf-1" 0 0 "" "" (mkAmount "" 0) (), None).
Proof.
  destruct (refund_and_reversal_nil_error_iff
              (Demo.client Demo.noAnswer (bytes_of_string "rf-1", 202, None))
              "2f1c" "tr-1" true 100)
    as (Href & _).
  destruct (Href (bytes_of_string "rf-1") 202 None eq_refl) as [_ Hok].
  exact (Hok eq_refl (or_intror eq_refl)).
Defined.
